(** * oauth2client/crypt.py: signed JSON Web Tokens

    A shallow embedding of [gcal-boilerplate/oauth2client/crypt.py] and the
    properties its specification states about it.

    The module is Python 2 code (byte [str], [long], bare [except:]), so a
    Python string is a sequence of 8-bit characters and serves both as text
    and as raw bytes.  Raising is modelled by an error monad; the clock read
    by [long(time.time())] is an explicit argument [now].

    The collaborators the module imports are not part of it:
    - [base64] / [binascii] are modelled concretely (module [base64] below),
      the decoder after CPython 2.7's [binascii.a2b_base64] because its
      leniency and its padding rules decide what the module accepts;
    - [simplejson] and the two crypto libraries are parameters
      ([JSONLib], [OpenSSL], [PyCrypto]).
    JSON numbers with a fraction or an exponent (Python floats) are outside
    the value model. *)

From Stdlib Require Import ZArith Ascii String.
From Stdlib Require Import DecimalString List Bool Lia Permutation.
Import ListNotations.
Open Scope list_scope.
Open Scope Z_scope.

(** ** Python strings *)

Definition str := list ascii.

Definition lit (x : string) : str := list_ascii_of_string x.

Definition ord (c : ascii) : Z := Z.of_N (N_of_ascii c).
Definition chr (z : Z) : ascii := ascii_of_N (Z.to_N z).

(** [len(x)] of a string or a list. *)
Definition len {A} (x : list A) : Z := Z.of_nat (length x).

Fixpoint str_eqb (x y : str) : bool :=
  match x, y with
  | [], [] => true
  | c :: x', d :: y' => Ascii.eqb c d && str_eqb x' y'
  | _, _ => false
  end.

(** [x.split(sep)] for a one-character separator. *)
Fixpoint split (sep : ascii) (x : str) : list str :=
  match x with
  | [] => [[]]
  | c :: rest =>
    if Ascii.eqb c sep then [] :: split sep rest
    else match split sep rest with
         | [] => [[c]]
         | seg :: segs => (c :: seg) :: segs
         end
  end.

(** [sep.join(segments)]. *)
Fixpoint join (sep : ascii) (segments : list str) : str :=
  match segments with
  | [] => []
  | [x] => x
  | x :: rest => x ++ sep :: join sep rest
  end.

(** [x.rstrip(c)] for a one-character set: [strip_rev] drops the leading run
    of [c] of the reversed string. *)
Fixpoint strip_rev (c : ascii) (r : str) : str :=
  match r with
  | [] => []
  | d :: r' => if Ascii.eqb d c then strip_rev c r' else r
  end.

Definition rstrip (c : ascii) (x : str) : str := rev (strip_rev c (rev x)).

(** [c * n]. *)
Definition str_mul (c : ascii) (n : Z) : str := repeat c (Z.to_nat n).

(** [x.translate(string.maketrans(from_, to_))] for two characters. *)
Definition translate_char (f1 t1 f2 t2 c : ascii) : ascii :=
  if Ascii.eqb c f1 then t1 else if Ascii.eqb c f2 then t2 else c.

Definition translate2 (f1 t1 f2 t2 : ascii) (x : str) : str :=
  map (translate_char f1 t1 f2 t2) x.

(** ** JSON values, as [simplejson.loads] returns them *)

#[warnings="-register-all"]
Inductive json :=
| JNull
| JBool (b : bool)
| JInt (n : Z)
| JString (x : str)
| JArray (items : list json)
| JObject (members : list (str * json)).

Fixpoint lookup (k : str) (members : list (str * json)) : option json :=
  match members with
  | [] => None
  | (k', v) :: rest => if str_eqb k k' then Some v else lookup k rest
  end.

(** ** Exceptions *)

(** The raise sites of [AppIdentityError] in [verify_signed_jwt_with_certs],
    with the values their messages are formatted from. *)
Inductive message :=
| WrongNumberOfSegments (jwt : str)
| CantParseToken (json_body : str)
| InvalidTokenSignature (jwt : str)
| NoIatField (json_body : str)
| NoExpField (json_body : str)
| ExpTooFarInFuture (json_body : str)
| TokenUsedTooEarly (now earliest : Z) (json_body : str)
| TokenUsedTooLate (now latest : Z) (json_body : str)
| NoAudField (json_body : str)
| WrongRecipient (aud : json) (audience : str) (json_body : str).

Inductive exn :=
| AppIdentityError (m : message)
| TypeError
| UnicodeError
| AttributeError
| NotImplementedError
| ImportError
| BinasciiError
| LibraryError (name : str).

Inductive result (A : Type) :=
| Return (a : A)
| Raise (e : exn).
Arguments Return {A} a.
Arguments Raise {A} e.

Definition bind {A B} (r : result A) (k : A -> result B) : result B :=
  match r with
  | Return a => k a
  | Raise e => Raise e
  end.

Notation "x <- r ;; k" := (bind r (fun x => k))
  (at level 61, r at next level, right associativity).
Notation "' p <- r ;; k" := (bind r (fun p => k))
  (at level 61, p pattern, r at next level, right associativity).

(** [try: body / except: handler] with a bare [except], which catches every
    exception. *)
Definition try_except {A} (body handler : result A) : result A :=
  match body with
  | Return a => Return a
  | Raise _ => handler
  end.

(** The error taxonomy of the specification, and the category of each raise
    site. *)
Inductive spec_error :=
| MalformedTokenError
| InvalidSignatureError
| MissingClaimError
| TokenNotYetValidError
| TokenExpiredError
| TokenLifetimeExceededError
| AudienceMismatchError.

Definition category (m : message) : spec_error :=
  match m with
  | WrongNumberOfSegments _ | CantParseToken _ => MalformedTokenError
  | InvalidTokenSignature _ => InvalidSignatureError
  | NoIatField _ | NoExpField _ | NoAudField _ => MissingClaimError
  | ExpTooFarInFuture _ => TokenLifetimeExceededError
  | TokenUsedTooEarly _ _ _ => TokenNotYetValidError
  | TokenUsedTooLate _ _ _ => TokenExpiredError
  | WrongRecipient _ _ _ => AudienceMismatchError
  end.

Definition fails_with {A} (r : result A) (e : spec_error) : Prop :=
  exists m, r = Raise (AppIdentityError m) /\ category m = e.

(** ** base64 and binascii *)

Module base64.

Definition BASE64_PAD : ascii := "="%char.

Definition table_b2a_base64 : str :=
  lit "ABCDEFGHIJKLMNOPQRSTUVWXYZabcdefghijklmnopqrstuvwxyz0123456789+/".

Definition b2a (v : Z) : ascii := nth (Z.to_nat v) table_b2a_base64 BASE64_PAD.

Fixpoint index_of (c : ascii) (tbl : str) (i : Z) : Z :=
  match tbl with
  | [] => -1
  | d :: tbl' => if Ascii.eqb c d then i else index_of c tbl' (i + 1)
  end.

(** The decoding table: the 6-bit value of an alphabet character, 0 for the
    pad character, -1 for every other character. *)
Definition table_a2b_base64 (c : ascii) : Z :=
  if Ascii.eqb c BASE64_PAD then 0 else index_of c table_b2a_base64 0.

(** [binascii.b2a_base64] without its final newline: three bytes give four
    characters, a last group of one or two bytes is padded with [=]. *)
Fixpoint b2a_base64 (bin_data : str) : str :=
  match bin_data with
  | [] => []
  | [x] =>
    let a := ord x in
    [b2a (Z.shiftr a 2); b2a (Z.shiftl (Z.land a 3) 4); BASE64_PAD; BASE64_PAD]
  | [x; y] =>
    let a := ord x in let b := ord y in
    [b2a (Z.shiftr a 2);
     b2a (Z.lor (Z.shiftl (Z.land a 3) 4) (Z.shiftr b 4));
     b2a (Z.shiftl (Z.land b 15) 2); BASE64_PAD]
  | x :: y :: z :: rest =>
    let a := ord x in let b := ord y in let c := ord z in
    b2a (Z.shiftr a 2)
    :: b2a (Z.lor (Z.shiftl (Z.land a 3) 4) (Z.shiftr b 4))
    :: b2a (Z.lor (Z.shiftl (Z.land b 15) 2) (Z.shiftr c 6))
    :: b2a (Z.land c 63)
    :: b2a_base64 rest
  end.

(** [binascii_find_valid]: the character code of the [num]-th (from 0) valid
    base64 character of [s], or -1. *)
Fixpoint binascii_find_valid (s : str) (num : Z) : Z :=
  match s with
  | [] => -1
  | c :: s' =>
    let b64val := table_a2b_base64 (chr (Z.land (ord c) 127)) in
    if (ord c <=? 127) && negb (b64val =? -1) then
      if num =? 0 then ord c else binascii_find_valid s' (num - 1)
    else binascii_find_valid s' num
  end.

(** The scanning loop of [binascii.a2b_base64]; the result is the decoded
    bytes and the final [leftbits]. *)
Fixpoint a2b_loop (ascii_data : str) (quad_pos leftbits leftchar : Z)
  : str * Z :=
  match ascii_data with
  | [] => ([], leftbits)
  | this_ch :: rest =>
    if (127 <? ord this_ch) || Ascii.eqb this_ch "013"%char
       || Ascii.eqb this_ch "010"%char || Ascii.eqb this_ch " "%char
    then a2b_loop rest quad_pos leftbits leftchar
    else if Ascii.eqb this_ch BASE64_PAD then
      if (quad_pos <? 2)
         || ((quad_pos =? 2)
             && negb (binascii_find_valid ascii_data 1 =? ord BASE64_PAD))
      then a2b_loop rest quad_pos leftbits leftchar
      else ([], 0)
    else
      let v := table_a2b_base64 this_ch in
      if v =? -1 then a2b_loop rest quad_pos leftbits leftchar
      else
        let quad_pos := Z.land (quad_pos + 1) 3 in
        let leftchar := Z.lor (Z.shiftl leftchar 6) v in
        let leftbits := leftbits + 6 in
        if 8 <=? leftbits then
          let leftbits := leftbits - 8 in
          let byte := chr (Z.land (Z.shiftr leftchar leftbits) 255) in
          let leftchar := Z.land leftchar (Z.shiftl 1 leftbits - 1) in
          let '(bin_data, final) := a2b_loop rest quad_pos leftbits leftchar in
          (byte :: bin_data, final)
        else a2b_loop rest quad_pos leftbits leftchar
  end.

Definition a2b_base64 (ascii_data : str) : result str :=
  let '(bin_data, leftbits) := a2b_loop ascii_data 0 0 0 in
  if negb (leftbits =? 0) then Raise BinasciiError else Return bin_data.

(** [base64.urlsafe_b64encode]. *)
Definition urlsafe_b64encode (s : str) : str :=
  translate2 "+" "-" "/" "_" (b2a_base64 s).

(** [base64.urlsafe_b64decode]: [binascii.Error] is turned into
    [TypeError]. *)
Definition urlsafe_b64decode (s : str) : result str :=
  match a2b_base64 (translate2 "-" "+" "_" "/" s) with
  | Return bin_data => Return bin_data
  | Raise BinasciiError => Raise TypeError
  | Raise e => Raise e
  end.

End base64.

(** ** The module's helpers *)

(** [b64string.encode('ascii')]: fails on a character above 127. *)
Definition encode_ascii (x : str) : result str :=
  if forallb (fun c => ord c <=? 127) x then Return x else Raise UnicodeError.

Definition _urlsafe_b64encode (raw_bytes : str) : str :=
  rstrip "=" (base64.urlsafe_b64encode raw_bytes).

Definition padded (b64string : str) : str :=
  b64string ++ str_mul "=" (4 - len b64string mod 4).

Definition _urlsafe_b64decode (b64string : str) : result str :=
  b64string <- encode_ascii b64string ;;
  base64.urlsafe_b64decode (padded b64string).

(** ** Collaborators *)

(** [simplejson]: [dumps] with compact separators, and [loads]. *)
Class JSONLib := {
  dumps : json -> str;
  loads : str -> result json
}.

(** What the module uses of [OpenSSL.crypto].  [crypto_verify] returns
    nothing and raises on a signature that does not verify. *)
Record OpenSSL := {
  ossl_key : Type;
  load_certificate : str -> result ossl_key;
  load_privatekey : str -> result ossl_key;
  load_pkcs12_privatekey : str -> str -> result ossl_key;
  crypto_sign : ossl_key -> str -> result str;
  crypto_verify : ossl_key -> str -> str -> result unit
}.

(** What the module uses of PyCrypto: [RSA.importKey] and the
    [PKCS1_v1_5] scheme over a [SHA256] digest of the message. *)
Record PyCrypto := {
  rsa_key : Type;
  importKey : str -> result rsa_key;
  pkcs1_sign : rsa_key -> str -> result str;
  pkcs1_verify : rsa_key -> str -> str -> result bool
}.

(** ** Signer and Verifier *)

(** The interface the two pairs of classes share. *)
Class Backend := {
  Verifier : Type;
  Signer : Type;
  Verifier_verify : Verifier -> str -> str -> result bool;
  Verifier_from_string : str -> bool -> result Verifier;
  Signer_sign : Signer -> str -> result str;
  Signer_from_string : str -> str -> result Signer
}.

Definition startswith (prefix x : str) : bool :=
  str_eqb (firstn (length prefix) x) prefix.

Section OpenSSLClasses.
Variable L : OpenSSL.

Definition OpenSSLVerifier_verify (_pubkey : ossl_key L)
    (message signature : str) : result bool :=
  try_except
    (_ <- crypto_verify L _pubkey signature message ;; Return true)
    (Return false).

Definition OpenSSLVerifier_from_string (key_pem : str) (is_x509_cert : bool)
  : result (ossl_key L) :=
  if is_x509_cert then load_certificate L key_pem
  else load_privatekey L key_pem.

Definition OpenSSLSigner_sign (_key : ossl_key L) (message : str)
  : result str :=
  crypto_sign L _key message.

Definition OpenSSLSigner_from_string (key password : str)
  : result (ossl_key L) :=
  if startswith (lit "-----BEGIN ") key then load_privatekey L key
  else load_pkcs12_privatekey L key password.

Definition OpenSSLBackend : Backend := {|
  Verifier := ossl_key L;
  Signer := ossl_key L;
  Verifier_verify := OpenSSLVerifier_verify;
  Verifier_from_string := OpenSSLVerifier_from_string;
  Signer_sign := OpenSSLSigner_sign;
  Signer_from_string := OpenSSLSigner_from_string
|}.
End OpenSSLClasses.

Section PyCryptoClasses.
Variable L : PyCrypto.

Definition PyCryptoVerifier_verify (_pubkey : rsa_key L)
    (message signature : str) : result bool :=
  try_except (pkcs1_verify L _pubkey message signature) (Return false).

Definition PyCryptoVerifier_from_string (key_pem : str) (is_x509_cert : bool)
  : result (rsa_key L) :=
  if is_x509_cert then Raise NotImplementedError
  else importKey L key_pem.

Definition PyCryptoSigner_sign (_key : rsa_key L) (message : str)
  : result str :=
  pkcs1_sign L _key message.

Definition PyCryptoSigner_from_string (key password : str)
  : result (rsa_key L) :=
  if startswith (lit "-----BEGIN ") key then importKey L key
  else Raise NotImplementedError.

Definition PyCryptoBackend : Backend := {|
  Verifier := rsa_key L;
  Signer := rsa_key L;
  Verifier_verify := PyCryptoVerifier_verify;
  Verifier_from_string := PyCryptoVerifier_from_string;
  Signer_sign := PyCryptoSigner_sign;
  Signer_from_string := PyCryptoSigner_from_string
|}.
End PyCryptoClasses.

(** The choice made when the module is imported: OpenSSL if it is installed,
    else PyCrypto, else the import fails. *)
Definition select_backend (openssl : option OpenSSL) (pycrypto : option PyCrypto)
  : result Backend :=
  match openssl, pycrypto with
  | Some L, _ => Return (OpenSSLBackend L)
  | None, Some L => Return (PyCryptoBackend L)
  | None, None => Raise ImportError
  end.

(** ** Python operators on the values of claims *)

Definition CLOCK_SKEW_SECS : Z := 300.
Definition AUTH_TOKEN_LIFETIME_SECS : Z := 300.
Definition MAX_TOKEN_LIFETIME_SECS : Z := 86400.

(** [d.get(k)]: [None] (here [JNull]) for a missing key; only a [dict] has
    the method. *)
Definition dict_get (d : json) (k : str) : result json :=
  match d with
  | JObject members =>
    Return (match lookup k members with Some v => v | None => JNull end)
  | _ => Raise AttributeError
  end.

Definition is_None (v : json) : bool :=
  match v with JNull => true | _ => false end.

(** The integers of Python: [int], [long] and [bool]. *)
Definition as_number (v : json) : option Z :=
  match v with
  | JInt n => Some n
  | JBool b => Some (if b then 1 else 0)
  | _ => None
  end.

(** [v - n] and [v + n] for an integer [n]. *)
Definition py_sub (v : json) (n : Z) : result Z :=
  match as_number v with
  | Some i => Return (i - n)
  | None => Raise TypeError
  end.

Definition py_add (v : json) (n : Z) : result Z :=
  match as_number v with
  | Some i => Return (i + n)
  | None => Raise TypeError
  end.

(** [v >= n] for an integer [n].  Python 2 orders values of different types:
    [None] is below everything and a number is below every value that is
    not a number. *)
Definition py_ge (v : json) (n : Z) : bool :=
  match as_number v with
  | Some i => n <=? i
  | None => negb (is_None v)
  end.

(** [v != x] for a string [x]. *)
Definition py_ne_str (v : json) (x : str) : bool :=
  match v with
  | JString y => negb (str_eqb y x)
  | _ => true
  end.

(** ** Making and verifying tokens *)

Section Tokens.
Context {J : JSONLib} {B : Backend}.

Definition _json_encode (data : json) : str := dumps data.

Definition make_signed_jwt (signer : Signer) (payload : json) : result str :=
  let header :=
    JObject [(lit "typ", JString (lit "JWT")); (lit "alg", JString (lit "RS256"))] in
  let segments :=
    [_urlsafe_b64encode (_json_encode header);
     _urlsafe_b64encode (_json_encode payload)] in
  let signing_input := join "." segments in
  signature <- Signer_sign signer signing_input ;;
  let segments := segments ++ [_urlsafe_b64encode signature] in
  Return (join "." segments).

(** Lines 336-341: the loop over [certs.items()], given as the list of
    items in the order of iteration; the result is the final value of
    [verified]. *)
Fixpoint check_signature (items : list (str * str)) (signed signature : str)
  : result bool :=
  match items with
  | [] => Return false
  | (keyname, pem) :: rest =>
    verifier <- Verifier_from_string pem true ;;
    ok <- Verifier_verify verifier signed signature ;;
    if ok then Return true else check_signature rest signed signature
  end.

(** Lines 319-333: split, decode, parse.  Returns [signed], [signature],
    [json_body] and [parsed]. *)
Definition parse_token (jwt : str) : result (str * str * str * json) :=
  let segments := split "." jwt in
  if negb (len segments =? 3) then
    Raise (AppIdentityError (WrongNumberOfSegments jwt))
  else
    let signed := nth 0 segments [] ++ "."%char :: nth 1 segments [] in
    signature <- _urlsafe_b64decode (nth 2 segments []) ;;
    json_body <- _urlsafe_b64decode (nth 1 segments []) ;;
    parsed <- try_except (loads json_body)
                (Raise (AppIdentityError (CantParseToken json_body))) ;;
    Return (signed, signature, json_body, parsed).

(** Lines 345-364: the creation and the expiration timestamp. *)
Definition check_timestamps (json_body : str) (parsed : json) (now : Z)
  : result unit :=
  iat <- dict_get parsed (lit "iat") ;;
  if is_None iat then Raise (AppIdentityError (NoIatField json_body)) else
  earliest <- py_sub iat CLOCK_SKEW_SECS ;;
  exp <- dict_get parsed (lit "exp") ;;
  if is_None exp then Raise (AppIdentityError (NoExpField json_body)) else
  if py_ge exp (now + MAX_TOKEN_LIFETIME_SECS) then
    Raise (AppIdentityError (ExpTooFarInFuture json_body))
  else
  latest <- py_add exp CLOCK_SKEW_SECS ;;
  if now <? earliest then
    Raise (AppIdentityError (TokenUsedTooEarly now earliest json_body))
  else
  if latest <? now then
    Raise (AppIdentityError (TokenUsedTooLate now latest json_body))
  else Return tt.

(** Lines 366-373: the audience. *)
Definition check_audience (json_body : str) (parsed : json)
    (audience : option str) : result unit :=
  match audience with
  | Some audience =>
    aud <- dict_get parsed (lit "aud") ;;
    if is_None aud then Raise (AppIdentityError (NoAudField json_body)) else
    if py_ne_str aud audience then
      Raise (AppIdentityError (WrongRecipient aud audience json_body))
    else Return tt
  | None => Return tt
  end.

Definition verify_signed_jwt_with_certs (jwt : str) (certs : list (str * str))
    (audience : option str) (now : Z) : result json :=
  '(signed, signature, json_body, parsed) <- parse_token jwt ;;
  verified <- check_signature certs signed signature ;;
  if negb verified then
    Raise (AppIdentityError (InvalidTokenSignature jwt))
  else
  _ <- check_timestamps json_body parsed now ;;
  _ <- check_audience json_body parsed audience ;;
  Return parsed.
End Tokens.

(** ** Vocabulary of the specification *)

(** The characters of base64url. *)
Definition urlsafe_alphabet : str :=
  translate2 "+" "-" "/" "_" base64.table_b2a_base64.

Definition is_base64url (c : ascii) : bool :=
  existsb (Ascii.eqb c) urlsafe_alphabet.

(** At least one certificate of the set verifies the signature. *)
Definition some_cert_verifies {B : Backend} (certs : list (str * str))
    (signed signature : str) : Prop :=
  exists keyname pem verifier,
    In (keyname, pem) certs
    /\ Verifier_from_string pem true = Return verifier
    /\ Verifier_verify verifier signed signature = Return true.

(** Every certificate of the set can be loaded. *)
Definition all_certs_parse {B : Backend} (certs : list (str * str)) : Prop :=
  forall keyname pem, In (keyname, pem) certs ->
    exists verifier, Verifier_from_string pem true = Return verifier.

(** ** Sample collaborators

    Small stand-ins for the libraries, on which the properties below are
    exercised: a printer of compact JSON whose reader knows a table of
    payloads, and a keyed checksum in the place of RSA-SHA256. *)

Module Sample.

Definition quote : ascii := "034"%char.

Fixpoint print (v : json) : str :=
  match v with
  | JNull => lit "null"
  | JBool true => lit "true"
  | JBool false => lit "false"
  | JInt n => lit (NilZero.string_of_int (Z.to_int n))
  | JString x => quote :: x ++ [quote]
  | JArray items => "["%char :: join "," (map print items) ++ ["]"%char]
  | JObject members =>
    "{"%char
    :: join ","
         (map (fun kv => quote :: fst kv ++ quote :: ":"%char :: print (snd kv))
              members)
    ++ ["}"%char]
  end.

Definition now : Z := 100000.

Definition claims (iat exp : json) : json :=
  JObject [(lit "iat", iat); (lit "exp", exp)].

Definition with_aud (iat exp : Z) (aud : str) : json :=
  JObject [(lit "iat", JInt iat); (lit "exp", JInt exp); (lit "aud", JString aud)].

(** The payloads the reader knows. *)
Definition payloads : list json :=
  [ claims (JInt 100000) (JInt 103600);
    claims (JInt 100300) (JInt 99700);
    claims (JInt 100000) (JInt 186401);
    claims (JInt 100301) (JInt 103600);
    claims (JInt 96000) (JInt 99699);
    claims (JString (lit "abc")) (JInt 103600);
    JObject [(lit "exp", JInt 103600)];
    JObject [(lit "iat", JInt 100000)];
    with_aud 100000 103600 (lit "svc-x");
    JObject [] ].

Definition read (x : str) : result json :=
  match find (fun p => str_eqb (print p) x) payloads with
  | Some p => Return p
  | None => Raise (LibraryError (lit "ValueError"))
  end.

Definition json_lib : JSONLib := {| dumps := print; loads := read |}.

Definition crypto_Error : exn := LibraryError (lit "OpenSSL.crypto.Error").

(** A PEM text is its armour line followed by the key; [load] accepts the
    texts of one kind. *)
Definition load (kind x : str) : result str :=
  if startswith (lit "-----BEGIN " ++ kind ++ lit "-----") x then
    Return (last (split "-" x) [])
  else Raise crypto_Error.

Definition digest (message : str) : ascii :=
  chr (fold_left (fun acc c => (acc * 31 + ord c) mod 256) message 7).

Definition tag (key message : str) : str := key ++ [digest message].

Definition openssl : OpenSSL := {|
  ossl_key := str;
  load_certificate := load (lit "CERTIFICATE");
  load_privatekey := load (lit "PRIVATE KEY");
  load_pkcs12_privatekey := fun _ _ => Raise crypto_Error;
  crypto_sign := fun key message => Return (tag key message);
  crypto_verify := fun key signature message =>
    if str_eqb signature (tag key message) then Return tt
    else Raise crypto_Error
|}.

Definition backend : Backend := OpenSSLBackend openssl.

Definition certA : str := lit "-----BEGIN CERTIFICATE-----keyA".
Definition certB : str := lit "-----BEGIN CERTIFICATE-----keyB".
Definition signerB : str := lit "keyB".

Definition verify := @verify_signed_jwt_with_certs json_lib backend.
Definition make := @make_signed_jwt json_lib backend.

(** Tokens that [make] signs with [signerB]; the first segment is the header
    [{typ:JWT, alg:RS256}]. *)
Definition jwt_fresh : str :=
  lit "eyJ0eXAiOiJKV1QiLCJhbGciOiJSUzI1NiJ9.eyJpYXQiOjEwMDAwMCwiZXhwIjoxMDM2MDB9.a2V5Qt4".
Definition jwt_reversed : str :=
  lit "eyJ0eXAiOiJKV1QiLCJhbGciOiJSUzI1NiJ9.eyJpYXQiOjEwMDMwMCwiZXhwIjo5OTcwMH0.a2V5Qvc".
Definition jwt_long : str :=
  lit "eyJ0eXAiOiJKV1QiLCJhbGciOiJSUzI1NiJ9.eyJpYXQiOjEwMDAwMCwiZXhwIjoxODY0MDF9.a2V5Qoo".
Definition jwt_text_iat : str :=
  lit "eyJ0eXAiOiJKV1QiLCJhbGciOiJSUzI1NiJ9.eyJpYXQiOiJhYmMiLCJleHAiOjEwMzYwMH0.a2V5QrY".
Definition jwt_no_iat : str :=
  lit "eyJ0eXAiOiJKV1QiLCJhbGciOiJSUzI1NiJ9.eyJleHAiOjEwMzYwMH0.a2V5QjI".
Definition jwt_aud : str :=
  lit "eyJ0eXAiOiJKV1QiLCJhbGciOiJSUzI1NiJ9.eyJpYXQiOjEwMDAwMCwiZXhwIjoxMDM2MDAsImF1ZCI6InN2Yy14In0.a2V5QmE".

(** [jwt_fresh] with a character outside the alphabet at the end of its
    signature segment. *)
Definition jwt_junk : str :=
  lit "eyJ0eXAiOiJKV1QiLCJhbGciOiJSUzI1NiJ9.eyJpYXQiOjEwMDAwMCwiZXhwIjoxMDM2MDB9.a2V5Qt4!".

Definition rotation : list (str * str) := [(lit "a", certA); (lit "b", certB)].

(** A certificate set whose first entry is a bare public key, not a
    certificate. *)
Definition pubkeyA : str := lit "-----BEGIN PUBLIC KEY-----keyA".

(** The public key behind [certB] and [signerB], as a bare key. *)
Definition pubkeyB : str := lit "-----BEGIN PUBLIC KEY-----keyB".
Definition mixed : list (str * str) := [(lit "a", pubkeyA); (lit "b", certB)].

(** A token whose first segment is not a header: [!!] is not base64, and the
    signature is over [!!] and the payload segment of [jwt_fresh]. *)
Definition jwt_no_header : str :=
  lit "!!.eyJpYXQiOjEwMDAwMCwiZXhwIjoxMDM2MDB9.a2V5Qps".

(** The same checksum as a PyCrypto library; it imports public keys. *)
Definition pycrypto : PyCrypto := {|
  rsa_key := str;
  importKey := load (lit "PUBLIC KEY");
  pkcs1_sign := fun key message => Return (tag key message);
  pkcs1_verify := fun key message signature =>
    Return (str_eqb signature (tag key message))
|}.

End Sample.

(** ** Auxiliary definitions of the proofs *)

Import base64.

(** The translations of [urlsafe_b64encode] and [urlsafe_b64decode] on one
    character. *)
Definition to_urlsafe : ascii -> ascii := translate_char "+" "-" "/" "_".
Definition from_urlsafe : ascii -> ascii := translate_char "-" "+" "_" "/".

(** The four 6-bit values of a group of three bytes, as [b2a_base64]
    computes them. *)
Definition sx1 (x : ascii) : Z := Z.shiftr (ord x) 2.
Definition sx2 (x y : ascii) : Z :=
  Z.lor (Z.shiftl (Z.land (ord x) 3) 4) (Z.shiftr (ord y) 4).
Definition sx3 (y z : ascii) : Z :=
  Z.lor (Z.shiftl (Z.land (ord y) 15) 2) (Z.shiftr (ord z) 6).
Definition sx4 (z : ascii) : Z := Z.land (ord z) 63.

(** What the decoder needs to know of the character of a 6-bit value. *)
Definition sextet_ok (v : Z) : bool :=
  let c := b2a v in
  let e := to_urlsafe c in
  Ascii.eqb (from_urlsafe e) c
  && (ord e <=? 127)
  && negb (Ascii.eqb e BASE64_PAD)
  && negb (Ascii.eqb e ".")
  && negb ((127 <? ord c) || Ascii.eqb c "013" || Ascii.eqb c "010"
           || Ascii.eqb c " ")
  && negb (Ascii.eqb c BASE64_PAD)
  && (table_a2b_base64 c =? v).

Record sextet_char (v : Z) : Prop := {
  sc_back : from_urlsafe (to_urlsafe (b2a v)) = b2a v;
  sc_ascii : (ord (to_urlsafe (b2a v)) <=? 127) = true;
  sc_not_pad : Ascii.eqb (to_urlsafe (b2a v)) BASE64_PAD = false;
  sc_not_dot : Ascii.eqb (to_urlsafe (b2a v)) "." = false;
  sc_not_skipped :
    (127 <? ord (b2a v)) || Ascii.eqb (b2a v) "013" || Ascii.eqb (b2a v) "010"
    || Ascii.eqb (b2a v) " " = false;
  sc_raw_not_pad : Ascii.eqb (b2a v) BASE64_PAD = false;
  sc_value : table_a2b_base64 (b2a v) = v
}.

(** The result of [a2b_base64] from the result of its loop. *)
Definition decoded (scan : str * Z) : result str :=
  let '(bin_data, leftbits) := scan in
  if negb (leftbits =? 0) then Raise TypeError else Return bin_data.

(** Linear arithmetic with division and remainder by constants. *)
Ltac dlia := Z.div_mod_to_equations; lia.

(** * Properties *)

(** ** The model on known values *)

(** The test vectors of RFC 4648, without their padding. *)
Example b64encode_vectors :
  map (fun x => _urlsafe_b64encode (lit x))
      ["f"; "fo"; "foo"; "foob"; "fooba"; "foobar"; "??>>"]%string
  = map lit ["Zg"; "Zm8"; "Zm9v"; "Zm9vYg"; "Zm9vYmE"; "Zm9vYmFy"; "Pz8-Pg"]%string.
Proof. vm_compute. reflexivity. Qed.

(** The decoder discards what is not in the alphabet, and fails on input it
    cannot pad or that is not ASCII. *)
Example b64decode_lenient :
  _urlsafe_b64decode (lit "e30!") = Return (lit "{}").
Proof. vm_compute. reflexivity. Qed.

Example b64decode_incorrect_padding :
  _urlsafe_b64decode (lit "a") = Raise TypeError.
Proof. vm_compute. reflexivity. Qed.

Example b64decode_not_ascii :
  _urlsafe_b64decode [chr 233] = Raise UnicodeError.
Proof. vm_compute. reflexivity. Qed.

Example split_dots :
  map (split ".") [lit "a.b.c"; lit "a.."; lit "abc"; lit ""]
  = [[lit "a"; lit "b"; lit "c"]; [lit "a"; []; []]; [lit "abc"]; [[]]].
Proof. vm_compute. reflexivity. Qed.

Example sample_make_fresh :
  Sample.make Sample.signerB (Sample.claims (JInt 100000) (JInt 103600))
  = Return Sample.jwt_fresh.
Proof. vm_compute. reflexivity. Qed.

(** An error of the decode helper leaves [verify_signed_jwt_with_certs] as
    it is. *)
Example decode_error_escapes :
  Sample.verify (lit "a.a.a") Sample.rotation None Sample.now = Raise TypeError.
Proof. vm_compute. reflexivity. Qed.

(** ** Characters and bit arithmetic *)


Lemma ord_range (c : ascii) : 0 <= ord c < 256.
Proof.
  unfold ord. pose proof (N_ascii_bounded c). lia.
Qed.

Lemma chr_ord (c : ascii) : chr (ord c) = c.
Proof.
  unfold chr, ord. rewrite N2Z.id. apply ascii_N_embedding.
Qed.

Lemma land_shiftl_small (x v k : Z) :
  0 <= k -> 0 <= v < 2 ^ k -> Z.land (Z.shiftl x k) v = 0.
Proof.
  intros Hk Hv. apply Z.bits_inj'. intros n Hn.
  rewrite Z.land_spec, Z.bits_0, Z.shiftl_spec by lia.
  destruct (Z.lt_ge_cases n k) as [Hlt | Hge].
  - rewrite Z.testbit_neg_r by lia. reflexivity.
  - rewrite <- (Z.mod_small v (2 ^ k)) by lia.
    rewrite Z.mod_pow2_bits_high by lia. apply andb_false_r.
Qed.

Lemma lor_shiftl_add (x v k : Z) :
  0 <= k -> 0 <= v < 2 ^ k -> Z.lor (Z.shiftl x k) v = x * 2 ^ k + v.
Proof.
  intros Hk Hv. pose proof (land_shiftl_small x v k Hk Hv) as H0.
  rewrite <- Z.lxor_lor, <- Z.add_nocarry_lxor by exact H0.
  rewrite Z.shiftl_mul_pow2 by lia. reflexivity.
Qed.

Lemma land_low (x k : Z) : 0 <= k -> Z.land x (2 ^ k - 1) = x mod 2 ^ k.
Proof.
  intros Hk. rewrite <- Z.land_ones by lia.
  rewrite Z.ones_equiv, Z.sub_1_r. reflexivity.
Qed.

(** The four 6-bit values of a group of three bytes, in arithmetic form. *)
Lemma sextet1 (a : Z) : Z.shiftr a 2 = a / 4.
Proof. rewrite Z.shiftr_div_pow2 by lia. reflexivity. Qed.

Lemma sextet2 (a b : Z) : 0 <= b < 256 ->
  Z.lor (Z.shiftl (Z.land a 3) 4) (Z.shiftr b 4) = a mod 4 * 16 + b / 16.
Proof.
  intros Hb. rewrite Z.shiftr_div_pow2 by lia.
  change 3 with (2 ^ 2 - 1). rewrite land_low by lia.
  rewrite lor_shiftl_add. { reflexivity. } { lia. }
  change (2 ^ 4) with 16. split.
  - apply Z.div_pos; lia.
  - apply Z.div_lt_upper_bound; lia.
Qed.

Lemma sextet3 (b c : Z) : 0 <= c < 256 ->
  Z.lor (Z.shiftl (Z.land b 15) 2) (Z.shiftr c 6) = b mod 16 * 4 + c / 64.
Proof.
  intros Hc. rewrite Z.shiftr_div_pow2 by lia.
  change 15 with (2 ^ 4 - 1). rewrite land_low by lia.
  rewrite lor_shiftl_add. { reflexivity. } { lia. }
  change (2 ^ 2) with 4. change (2 ^ 6) with 64. split.
  - apply Z.div_pos; lia.
  - apply Z.div_lt_upper_bound; lia.
Qed.

Lemma sextet4 (c : Z) : Z.land c 63 = c mod 64.
Proof. change 63 with (2 ^ 6 - 1). apply land_low. lia. Qed.

Lemma sextet2_last (a : Z) : Z.shiftl (Z.land a 3) 4 = a mod 4 * 16.
Proof.
  change 3 with (2 ^ 2 - 1). rewrite land_low by lia.
  rewrite Z.shiftl_mul_pow2 by lia. reflexivity.
Qed.

Lemma sextet3_last (b : Z) : Z.shiftl (Z.land b 15) 2 = b mod 16 * 4.
Proof.
  change 15 with (2 ^ 4 - 1). rewrite land_low by lia.
  rewrite Z.shiftl_mul_pow2 by lia. reflexivity.
Qed.

(** ** The base64 alphabet *)



Lemma sextet_ok_all (v : Z) : 0 <= v < 64 -> sextet_ok v = true.
Proof.
  intros Hv.
  assert (Hall : forallb (fun n => sextet_ok (Z.of_nat n)) (seq 0 64) = true)
    by (vm_compute; reflexivity).
  rewrite forallb_forall in Hall.
  rewrite <- (Z2Nat.id v) by lia. apply Hall, in_seq. lia.
Qed.


Lemma sextet_char_all (v : Z) : 0 <= v < 64 -> sextet_char v.
Proof.
  intros Hv. pose proof (sextet_ok_all v Hv) as H. unfold sextet_ok in H.
  repeat (apply andb_prop in H; destruct H as [H ?]).
  constructor;
    repeat match goal with
           | E : negb _ = true |- _ => apply negb_true_iff in E
           end;
    try assumption.
  - apply Ascii.eqb_eq; assumption.
  - apply Z.eqb_eq; assumption.
Qed.

(** ** One step of the decoder *)

Lemma a2b_loop_sextet (v : Z) (rest : str) (quad_pos leftbits leftchar : Z) :
  0 <= v < 64 ->
  a2b_loop (b2a v :: rest) quad_pos leftbits leftchar =
  if 8 <=? leftbits + 6 then
    let '(bin_data, final) :=
      a2b_loop rest (Z.land (quad_pos + 1) 3) (leftbits + 6 - 8)
        (Z.land (Z.lor (Z.shiftl leftchar 6) v)
                (Z.shiftl 1 (leftbits + 6 - 8) - 1)) in
    (chr (Z.land (Z.shiftr (Z.lor (Z.shiftl leftchar 6) v) (leftbits + 6 - 8))
                 255) :: bin_data, final)
  else a2b_loop rest (Z.land (quad_pos + 1) 3) (leftbits + 6)
         (Z.lor (Z.shiftl leftchar 6) v).
Proof.
  intros Hv. destruct (sextet_char_all v Hv).
  cbn [a2b_loop].
  rewrite sc_not_skipped0, sc_raw_not_pad0, sc_value0.
  replace (v =? -1) with false by (symmetry; apply Z.eqb_neq; lia).
  reflexivity.
Qed.

(** The four positions of a character in its group of four: the state of
    the decoder is ([quad_pos], [leftbits], [leftchar]). *)
Lemma a2b_loop_pos0 (v : Z) (rest : str) : 0 <= v < 64 ->
  a2b_loop (b2a v :: rest) 0 0 0 = a2b_loop rest 1 6 v.
Proof.
  intros Hv. rewrite a2b_loop_sextet by assumption.
  change (8 <=? 0 + 6) with false. cbv iota.
  change (Z.land (0 + 1) 3) with 1. change (0 + 6) with 6.
  rewrite Z.shiftl_0_l, Z.lor_0_l. reflexivity.
Qed.

Lemma a2b_loop_pos1 (v lc : Z) (rest : str) : 0 <= v < 64 -> 0 <= lc < 64 ->
  a2b_loop (b2a v :: rest) 1 6 lc =
  let '(bin_data, final) := a2b_loop rest 2 4 ((lc * 64 + v) mod 16) in
  (chr ((lc * 64 + v) / 16) :: bin_data, final).
Proof.
  intros Hv Hlc. rewrite a2b_loop_sextet by assumption.
  change (8 <=? 6 + 6) with true. cbv iota.
  change (Z.land (1 + 1) 3) with 2. change (6 + 6 - 8) with 4.
  rewrite lor_shiftl_add by lia. change (2 ^ 6) with 64.
  change (Z.shiftl 1 4 - 1) with (2 ^ 4 - 1). rewrite land_low by lia.
  rewrite Z.shiftr_div_pow2 by lia.
  change 255 with (2 ^ 8 - 1). rewrite land_low by lia.
  change (2 ^ 4) with 16. change (2 ^ 8) with 256.
  rewrite (Z.mod_small (_ / 16) 256); [reflexivity|].
  split; [apply Z.div_pos | apply Z.div_lt_upper_bound]; lia.
Qed.

Lemma a2b_loop_pos2 (v lc : Z) (rest : str) : 0 <= v < 64 -> 0 <= lc < 16 ->
  a2b_loop (b2a v :: rest) 2 4 lc =
  let '(bin_data, final) := a2b_loop rest 3 2 ((lc * 64 + v) mod 4) in
  (chr ((lc * 64 + v) / 4) :: bin_data, final).
Proof.
  intros Hv Hlc. rewrite a2b_loop_sextet by assumption.
  change (8 <=? 4 + 6) with true. cbv iota.
  change (Z.land (2 + 1) 3) with 3. change (4 + 6 - 8) with 2.
  rewrite lor_shiftl_add by lia. change (2 ^ 6) with 64.
  change (Z.shiftl 1 2 - 1) with (2 ^ 2 - 1). rewrite land_low by lia.
  rewrite Z.shiftr_div_pow2 by lia.
  change 255 with (2 ^ 8 - 1). rewrite land_low by lia.
  change (2 ^ 2) with 4. change (2 ^ 8) with 256.
  rewrite (Z.mod_small (_ / 4) 256); [reflexivity|].
  split; [apply Z.div_pos | apply Z.div_lt_upper_bound]; lia.
Qed.

Lemma a2b_loop_pos3 (v lc : Z) (rest : str) : 0 <= v < 64 -> 0 <= lc < 4 ->
  a2b_loop (b2a v :: rest) 3 2 lc =
  let '(bin_data, final) := a2b_loop rest 0 0 0 in
  (chr (lc * 64 + v) :: bin_data, final).
Proof.
  intros Hv Hlc. rewrite a2b_loop_sextet by assumption.
  change (8 <=? 2 + 6) with true. cbv iota.
  change (Z.land (3 + 1) 3) with 0. change (2 + 6 - 8) with 0.
  rewrite lor_shiftl_add by lia. change (2 ^ 6) with 64.
  change (Z.shiftl 1 0 - 1) with 0. rewrite Z.land_0_r, Z.shiftr_0_r.
  change 255 with (2 ^ 8 - 1). rewrite land_low by lia.
  change (2 ^ 8) with 256. rewrite Z.mod_small by lia. reflexivity.
Qed.

(** The pad characters that [_urlsafe_b64decode] restores end the scan. *)
Lemma a2b_loop_pad4 : a2b_loop (lit "====") 0 0 0 = ([], 0).
Proof. reflexivity. Qed.

Lemma a2b_loop_pad2 (lc : Z) : a2b_loop (lit "==") 2 4 lc = ([], 0).
Proof. reflexivity. Qed.

Lemma a2b_loop_pad1 (lc : Z) : a2b_loop (lit "=") 3 2 lc = ([], 0).
Proof. reflexivity. Qed.

(** ** Groups of three bytes *)

Section Group.
Variables x y z : ascii.


Lemma sx1_eq : sx1 x = ord x / 4.
Proof. apply sextet1. Qed.
Lemma sx2_eq : sx2 x y = ord x mod 4 * 16 + ord y / 16.
Proof. apply sextet2, ord_range. Qed.
Lemma sx3_eq : sx3 y z = ord y mod 16 * 4 + ord z / 64.
Proof. apply sextet3, ord_range. Qed.
Lemma sx4_eq : sx4 z = ord z mod 64.
Proof. apply sextet4. Qed.

Lemma sx1_range : 0 <= sx1 x < 64.
Proof. rewrite sx1_eq. pose proof (ord_range x). dlia. Qed.
Lemma sx2_range : 0 <= sx2 x y < 64.
Proof.
  rewrite sx2_eq. pose proof (ord_range x). pose proof (ord_range y).
  dlia.
Qed.
Lemma sx3_range : 0 <= sx3 y z < 64.
Proof.
  rewrite sx3_eq. pose proof (ord_range y). pose proof (ord_range z).
  dlia.
Qed.
Lemma sx4_range : 0 <= sx4 z < 64.
Proof. rewrite sx4_eq. pose proof (ord_range z). dlia. Qed.

Lemma a2b_loop_group (rest : str) :
  a2b_loop (b2a (sx1 x) :: b2a (sx2 x y) :: b2a (sx3 y z) :: b2a (sx4 z) :: rest) 0 0 0 =
  let '(bin_data, final) := a2b_loop rest 0 0 0 in
  (x :: y :: z :: bin_data, final).
Proof.
  pose proof sx1_range. pose proof sx2_range. pose proof sx3_range.
  pose proof sx4_range. pose proof (ord_range x). pose proof (ord_range y).
  pose proof (ord_range z).
  rewrite a2b_loop_pos0 by assumption.
  rewrite a2b_loop_pos1 by assumption.
  rewrite a2b_loop_pos2 by (try assumption; dlia).
  rewrite a2b_loop_pos3 by (try assumption; dlia).
  destruct (a2b_loop rest 0 0 0) as [bin_data final].
  rewrite sx1_eq, sx2_eq, sx3_eq, sx4_eq in *.
  replace ((ord x / 4 * 64 + (ord x mod 4 * 16 + ord y / 16)) / 16)
    with (ord x) by dlia.
  replace ((ord x / 4 * 64 + (ord x mod 4 * 16 + ord y / 16)) mod 16)
    with (ord y / 16) by dlia.
  replace ((ord y / 16 * 64 + (ord y mod 16 * 4 + ord z / 64)) / 4)
    with (ord y) by dlia.
  replace ((ord y / 16 * 64 + (ord y mod 16 * 4 + ord z / 64)) mod 4)
    with (ord z / 64) by dlia.
  replace (ord z / 64 * 64 + ord z mod 64) with (ord z) by dlia.
  rewrite !chr_ord. reflexivity.
Qed.
End Group.

(** ** [rstrip] *)

Lemma strip_rev_snoc (c x : ascii) (r : str) :
  Ascii.eqb x c = false -> strip_rev c (r ++ [x]) = strip_rev c r ++ [x].
Proof.
  intros Hx. induction r as [|d r IH]; simpl.
  - rewrite Hx. reflexivity.
  - destruct (Ascii.eqb d c); [exact IH | reflexivity].
Qed.

Lemma rstrip_cons (c x : ascii) (l : str) :
  Ascii.eqb x c = false -> rstrip c (x :: l) = x :: rstrip c l.
Proof.
  intros Hx. unfold rstrip. simpl rev.
  rewrite strip_rev_snoc by assumption.
  rewrite rev_app_distr. reflexivity.
Qed.

Lemma strip_rev_incl (c : ascii) (r : str) : incl (strip_rev c r) r.
Proof.
  induction r as [|d r IH]; simpl.
  - apply incl_refl.
  - destruct (Ascii.eqb d c).
    + apply incl_tl, IH.
    + apply incl_refl.
Qed.

Lemma rstrip_incl (c : ascii) (l : str) : incl (rstrip c l) l.
Proof.
  intros d Hd. unfold rstrip in Hd. apply in_rev in Hd.
  apply strip_rev_incl in Hd. apply in_rev in Hd. exact Hd.
Qed.

(** ** The helpers on a group *)


(** [_urlsafe_b64decode] in one piece. *)
Lemma _urlsafe_b64decode_eq (b64string : str) :
  _urlsafe_b64decode b64string =
  if forallb (fun c => ord c <=? 127) b64string then
    decoded (a2b_loop (map from_urlsafe (padded b64string)) 0 0 0)
  else Raise UnicodeError.
Proof.
  unfold _urlsafe_b64decode, encode_ascii.
  destruct (forallb _ b64string); [|reflexivity].
  cbn [bind]. unfold urlsafe_b64decode, a2b_base64, translate2, decoded.
  fold from_urlsafe.
  destruct (a2b_loop _ 0 0 0) as [bin_data leftbits].
  destruct (leftbits =? 0); reflexivity.
Qed.

Lemma _urlsafe_b64encode_group (x y z : ascii) (rest : str) :
  _urlsafe_b64encode (x :: y :: z :: rest) =
  to_urlsafe (b2a (sx1 x)) :: to_urlsafe (b2a (sx2 x y))
  :: to_urlsafe (b2a (sx3 y z)) :: to_urlsafe (b2a (sx4 z))
  :: _urlsafe_b64encode rest.
Proof.
  unfold _urlsafe_b64encode, urlsafe_b64encode, translate2.
  cbn [b2a_base64 map]. fold to_urlsafe.
  destruct (sextet_char_all _ (sx1_range x)).
  destruct (sextet_char_all _ (sx2_range x y)).
  destruct (sextet_char_all _ (sx3_range y z)).
  destruct (sextet_char_all _ (sx4_range z)).
  rewrite !rstrip_cons by assumption. reflexivity.
Qed.

Lemma len_group {A} (e1 e2 e3 e4 : A) (l : list A) :
  len (e1 :: e2 :: e3 :: e4 :: l) mod 4 = len l mod 4.
Proof.
  unfold len. cbn [length]. rewrite !Nat2Z.inj_succ.
  replace (Z.succ (Z.succ (Z.succ (Z.succ (Z.of_nat (length l))))))
    with (Z.of_nat (length l) + 1 * 4) by lia.
  apply Z.mod_add. lia.
Qed.

Lemma _urlsafe_b64decode_group (x y z : ascii) (b64string bin_data : str) :
  _urlsafe_b64decode b64string = Return bin_data ->
  _urlsafe_b64decode
    (to_urlsafe (b2a (sx1 x)) :: to_urlsafe (b2a (sx2 x y))
     :: to_urlsafe (b2a (sx3 y z)) :: to_urlsafe (b2a (sx4 z)) :: b64string)
  = Return (x :: y :: z :: bin_data).
Proof.
  rewrite !_urlsafe_b64decode_eq. intros H.
  destruct (sextet_char_all _ (sx1_range x)).
  destruct (sextet_char_all _ (sx2_range x y)).
  destruct (sextet_char_all _ (sx3_range y z)).
  destruct (sextet_char_all _ (sx4_range z)).
  cbn [forallb].
  rewrite sc_ascii0, sc_ascii1, sc_ascii2, sc_ascii3. cbn [andb].
  destruct (forallb _ b64string); [|discriminate H].
  unfold padded. rewrite len_group. cbn [app map].
  fold (padded b64string).
  rewrite sc_back0, sc_back1, sc_back2, sc_back3.
  rewrite a2b_loop_group.
  destruct (a2b_loop _ 0 0 0) as [out leftbits]. unfold decoded in *.
  destruct (negb (leftbits =? 0)); [discriminate H|].
  injection H as ->. reflexivity.
Qed.

(** A last group of one byte, and of two. *)
Lemma _urlsafe_b64_last1 (x : ascii) :
  _urlsafe_b64decode (_urlsafe_b64encode [x]) = Return [x].
Proof.
  pose proof (ord_range x) as Hx.
  assert (H1 : 0 <= Z.shiftr (ord x) 2 < 64) by (rewrite sextet1; dlia).
  assert (H2 : 0 <= Z.shiftl (Z.land (ord x) 3) 4 < 64)
    by (rewrite sextet2_last; dlia).
  destruct (sextet_char_all _ H1). destruct (sextet_char_all _ H2).
  unfold _urlsafe_b64encode, urlsafe_b64encode, translate2.
  cbn [b2a_base64 map]. fold to_urlsafe.
  rewrite !rstrip_cons by assumption.
  change (rstrip "=" [to_urlsafe BASE64_PAD; to_urlsafe BASE64_PAD]) with (@nil ascii).
  rewrite _urlsafe_b64decode_eq. cbn [forallb].
  rewrite sc_ascii0, sc_ascii1. cbn [andb].
  unfold padded. change (str_mul "=" (4 - len [_; _] mod 4)) with (lit "==").
  cbn [app map]. rewrite sc_back0, sc_back1.
  rewrite a2b_loop_pos0, a2b_loop_pos1 by assumption.
  change (map from_urlsafe (lit "==")) with (lit "==").
  rewrite a2b_loop_pad2. unfold decoded. cbn [Z.eqb negb].
  rewrite sextet1, sextet2_last.
  replace ((ord x / 4 * 64 + ord x mod 4 * 16) / 16) with (ord x) by dlia.
  rewrite chr_ord. reflexivity.
Qed.

Lemma _urlsafe_b64_last2 (x y : ascii) :
  _urlsafe_b64decode (_urlsafe_b64encode [x; y]) = Return [x; y].
Proof.
  pose proof (ord_range x) as Hx. pose proof (ord_range y) as Hy.
  pose proof (sx1_range x) as H1. pose proof (sx2_range x y) as H2.
  assert (H3 : 0 <= Z.shiftl (Z.land (ord y) 15) 2 < 64)
    by (rewrite sextet3_last; dlia).
  destruct (sextet_char_all _ H1). destruct (sextet_char_all _ H2).
  destruct (sextet_char_all _ H3).
  unfold _urlsafe_b64encode, urlsafe_b64encode, translate2.
  cbn [b2a_base64 map]. fold to_urlsafe. fold (sx1 x) (sx2 x y).
  rewrite !rstrip_cons by assumption.
  change (rstrip "=" [to_urlsafe BASE64_PAD]) with (@nil ascii).
  rewrite _urlsafe_b64decode_eq. cbn [forallb].
  rewrite sc_ascii0, sc_ascii1, sc_ascii2. cbn [andb].
  unfold padded. change (str_mul "=" (4 - len [_; _; _] mod 4)) with (lit "=").
  cbn [app map]. rewrite sc_back0, sc_back1, sc_back2.
  rewrite a2b_loop_pos0, a2b_loop_pos1 by assumption.
  rewrite a2b_loop_pos2 by (try assumption; dlia).
  change (map from_urlsafe (lit "=")) with (lit "=").
  rewrite a2b_loop_pad1. unfold decoded. cbn [Z.eqb negb].
  rewrite sx1_eq, sx2_eq, sextet3_last.
  replace ((ord x / 4 * 64 + (ord x mod 4 * 16 + ord y / 16)) / 16)
    with (ord x) by dlia.
  replace ((ord x / 4 * 64 + (ord x mod 4 * 16 + ord y / 16)) mod 16)
    with (ord y / 16) by dlia.
  replace ((ord y / 16 * 64 + ord y mod 16 * 4) / 4) with (ord y) by dlia.
  rewrite !chr_ord. reflexivity.
Qed.

(** Induction on a byte string by groups of three. *)
Lemma bytes_ind3 (P : str -> Prop) :
  P [] -> (forall x, P [x]) -> (forall x y, P [x; y]) ->
  (forall x y z rest, P rest -> P (x :: y :: z :: rest)) ->
  forall bin_data, P bin_data.
Proof.
  intros H0 H1 H2 H3.
  assert (Hall : forall bin_data, P bin_data /\
            (forall x, P (x :: bin_data)) /\
            (forall x y, P (x :: y :: bin_data))).
  { induction bin_data as [|z rest [IH0 [IH1 IH2]]].
    - auto.
    - repeat split; auto. }
  intros bin_data. apply Hall.
Qed.

Lemma _urlsafe_b64decode_encode (raw_bytes : str) :
  _urlsafe_b64decode (_urlsafe_b64encode raw_bytes) = Return raw_bytes.
Proof.
  induction raw_bytes as [| x | x y | x y z rest IH] using bytes_ind3.
  - reflexivity.
  - apply _urlsafe_b64_last1.
  - apply _urlsafe_b64_last2.
  - rewrite _urlsafe_b64encode_group.
    apply _urlsafe_b64decode_group, IH.
Qed.

Lemma Return_inj {A} (a b : A) : Return a = Return b -> a = b.
Proof. intros H. injection H as H. exact H. Qed.

(** ** Strings *)

Lemma str_eqb_eq (x y : str) : str_eqb x y = true <-> x = y.
Proof.
  revert y. induction x as [|c x IH]; intros [|d y]; simpl;
    try (split; [discriminate | discriminate]); try tauto.
  rewrite andb_true_iff, Ascii.eqb_eq, IH.
  split; [intros [-> ->]; reflexivity | intros H; injection H; auto].
Qed.

Lemma str_eqb_refl (x : str) : str_eqb x x = true.
Proof. apply str_eqb_eq. reflexivity. Qed.

Lemma split_no_sep (sep : ascii) (x : str) :
  ~ In sep x -> split sep x = [x].
Proof.
  induction x as [|c x IH]; intros Hx; simpl.
  - reflexivity.
  - destruct (Ascii.eqb c sep) eqn:E.
    + apply Ascii.eqb_eq in E. subst c. exfalso. apply Hx. left. reflexivity.
    + rewrite IH; [reflexivity|]. intros Hin. apply Hx. right. exact Hin.
Qed.

Lemma split_segment (sep : ascii) (x rest : str) :
  ~ In sep x -> split sep (x ++ sep :: rest) = x :: split sep rest.
Proof.
  induction x as [|c x IH]; intros Hx; simpl.
  - rewrite Ascii.eqb_refl. reflexivity.
  - destruct (Ascii.eqb c sep) eqn:E.
    + apply Ascii.eqb_eq in E. subst c. exfalso. apply Hx. left. reflexivity.
    + rewrite IH; [reflexivity|]. intros Hin. apply Hx. right. exact Hin.
Qed.

Lemma split_join3 (sep : ascii) (x y z : str) :
  ~ In sep x -> ~ In sep y -> ~ In sep z ->
  split sep (join sep [x; y; z]) = [x; y; z].
Proof.
  intros Hx Hy Hz. cbn [join].
  rewrite split_segment, split_segment, split_no_sep by assumption.
  reflexivity.
Qed.

(** ** The characters of an encoded segment *)

Lemma b2a_in (v : Z) : In (b2a v) (BASE64_PAD :: table_b2a_base64).
Proof.
  unfold b2a.
  destruct (nth_in_or_default (Z.to_nat v) table_b2a_base64 BASE64_PAD) as [H | H].
  - right. exact H.
  - left. symmetry. exact H.
Qed.

Lemma b2a_base64_chars (bin_data : str) :
  Forall (fun c => In c (BASE64_PAD :: table_b2a_base64)) (b2a_base64 bin_data).
Proof.
  induction bin_data as [| x | x y | x y z rest IH] using bytes_ind3;
    cbn [b2a_base64]; repeat apply Forall_cons; try apply Forall_nil;
    try apply b2a_in; try exact IH; left; reflexivity.
Qed.

Lemma _urlsafe_b64encode_no_dot (raw_bytes : str) :
  ~ In "."%char (_urlsafe_b64encode raw_bytes).
Proof.
  intros Hin. apply rstrip_incl in Hin.
  unfold urlsafe_b64encode, translate2 in Hin.
  apply in_map_iff in Hin. destruct Hin as [c [Hc Hin]].
  pose proof (b2a_base64_chars raw_bytes) as Hall.
  rewrite Forall_forall in Hall. apply Hall in Hin.
  assert (Hno : forallb (fun c => negb (Ascii.eqb (to_urlsafe c) "."))
                  (BASE64_PAD :: table_b2a_base64) = true)
    by (vm_compute; reflexivity).
  rewrite forallb_forall in Hno. apply Hno in Hin.
  fold to_urlsafe in Hc. rewrite Hc in Hin. discriminate Hin.
Qed.

(** ** The pipeline of [verify_signed_jwt_with_certs] *)

Section Verification.
Context {J : JSONLib} {B : Backend}.

Lemma verify_after_signature (jwt : str) (certs : list (str * str))
  (audience : option str) (now : Z) (signed signature json_body : str)
  (parsed : json) :
parse_token jwt = Return (signed, signature, json_body, parsed) ->
check_signature certs signed signature = Return true ->
verify_signed_jwt_with_certs jwt certs audience now =
(_ <- check_timestamps json_body parsed now ;;
 _ <- check_audience json_body parsed audience ;;
 Return parsed).
Proof.
intros Hp Hs. unfold verify_signed_jwt_with_certs.
rewrite Hp. cbn [bind]. rewrite Hs. reflexivity.
Qed.

Lemma check_timestamps_int (json_body : str) (parsed : json) (now iat exp : Z) :
dict_get parsed (lit "iat") = Return (JInt iat) ->
dict_get parsed (lit "exp") = Return (JInt exp) ->
check_timestamps json_body parsed now =
if now + MAX_TOKEN_LIFETIME_SECS <=? exp then
  Raise (AppIdentityError (ExpTooFarInFuture json_body))
else if now <? iat - CLOCK_SKEW_SECS then
  Raise (AppIdentityError
           (TokenUsedTooEarly now (iat - CLOCK_SKEW_SECS) json_body))
else if exp + CLOCK_SKEW_SECS <? now then
  Raise (AppIdentityError
           (TokenUsedTooLate now (exp + CLOCK_SKEW_SECS) json_body))
else Return tt.
Proof.
intros Hi He. unfold check_timestamps.
rewrite Hi. cbn [bind is_None py_sub as_number].
rewrite He. cbn [bind is_None py_ge py_add as_number].
reflexivity.
Qed.

(** C3: with a skew of 300 seconds, a token whose signature verifies, whose
  [iat] and [exp] are integers, whose [exp] is below the lifetime cap and
  whose audience is accepted, is accepted exactly when
  [iat - 300 <= now <= exp + 300]; before the window it fails as not yet
  valid, after it as expired.  In particular [iat = now + 301] fails and
  [iat = now + 300] passes, [exp = now - 301] fails and [exp = now - 300]
  passes. *)
Theorem clock_skew_window (jwt : str) (certs : list (str * str))
  (audience : option str) (now : Z) (signed signature json_body : str)
  (parsed : json) (iat exp : Z) :
parse_token jwt = Return (signed, signature, json_body, parsed) ->
check_signature certs signed signature = Return true ->
dict_get parsed (lit "iat") = Return (JInt iat) ->
dict_get parsed (lit "exp") = Return (JInt exp) ->
exp < now + MAX_TOKEN_LIFETIME_SECS ->
check_audience json_body parsed audience = Return tt ->
let verify := verify_signed_jwt_with_certs jwt certs audience now in
CLOCK_SKEW_SECS = 300 /\
(verify = Return parsed <-> iat - 300 <= now <= exp + 300) /\
(now < iat - 300 ->
 verify = Raise (AppIdentityError (TokenUsedTooEarly now (iat - 300) json_body))
 /\ fails_with verify TokenNotYetValidError) /\
(iat - 300 <= now -> exp + 300 < now ->
 verify = Raise (AppIdentityError (TokenUsedTooLate now (exp + 300) json_body))
 /\ fails_with verify TokenExpiredError) /\
(iat = now + 301 -> fails_with verify TokenNotYetValidError) /\
(iat = now + 300 -> now <= exp + 300 -> verify = Return parsed) /\
(exp = now - 301 -> iat - 300 <= now -> fails_with verify TokenExpiredError) /\
(exp = now - 300 -> iat - 300 <= now -> verify = Return parsed).
Proof.
intros Hp Hs Hi He Hcap Haud verify.
assert (Hv : verify =
  if now <? iat - 300 then
    Raise (AppIdentityError (TokenUsedTooEarly now (iat - 300) json_body))
  else if exp + 300 <? now then
    Raise (AppIdentityError (TokenUsedTooLate now (exp + 300) json_body))
  else Return parsed).
{ unfold verify.
  rewrite (verify_after_signature _ _ _ _ _ _ _ _ Hp Hs).
  rewrite (check_timestamps_int _ _ _ _ _ Hi He).
  replace (now + MAX_TOKEN_LIFETIME_SECS <=? exp) with false
    by (symmetry; apply Z.leb_gt; exact Hcap).
  change CLOCK_SKEW_SECS with 300.
  destruct (now <? iat - 300); [reflexivity|].
  destruct (exp + 300 <? now); [reflexivity|].
  cbn [bind]. rewrite Haud. reflexivity. }
assert (Hearly : now < iat - 300 ->
  verify = Raise (AppIdentityError (TokenUsedTooEarly now (iat - 300) json_body))
  /\ fails_with verify TokenNotYetValidError).
{ intros H. rewrite Hv.
  replace (now <? iat - 300) with true by (symmetry; apply Z.ltb_lt; exact H).
  split; [reflexivity|]. eexists; split; reflexivity. }
assert (Hlate : iat - 300 <= now -> exp + 300 < now ->
  verify = Raise (AppIdentityError (TokenUsedTooLate now (exp + 300) json_body))
  /\ fails_with verify TokenExpiredError).
{ intros H1 H2. rewrite Hv.
  replace (now <? iat - 300) with false by (symmetry; apply Z.ltb_ge; exact H1).
  replace (exp + 300 <? now) with true by (symmetry; apply Z.ltb_lt; exact H2).
  split; [reflexivity|]. eexists; split; reflexivity. }
assert (Hin : iat - 300 <= now <= exp + 300 -> verify = Return parsed).
{ intros [H1 H2]. rewrite Hv.
  replace (now <? iat - 300) with false by (symmetry; apply Z.ltb_ge; exact H1).
  replace (exp + 300 <? now) with false by (symmetry; apply Z.ltb_ge; exact H2).
  reflexivity. }
split; [reflexivity|].
split.
{ split; [|exact Hin]. intros Hok.
  destruct (Z.lt_ge_cases now (iat - 300)) as [H1 | H1].
  - destruct (Hearly H1) as [Hr _]. rewrite Hr in Hok. discriminate Hok.
  - destruct (Z.lt_ge_cases (exp + 300) now) as [H2 | H2].
    + destruct (Hlate H1 H2) as [Hr _]. rewrite Hr in Hok. discriminate Hok.
    + lia. }
split; [exact Hearly|].
split; [exact Hlate|].
split; [intros H; apply Hearly; lia|].
split; [intros H1 H2; apply Hin; lia|].
split; [intros H1 H2; apply Hlate; lia|].
intros H1 H2; apply Hin; lia.
Qed.

(** C4: a token whose signature verifies and whose [iat] and [exp] are
  integers fails as exceeding the lifetime when
  [exp >= now + 86400], whatever the other checks would say. *)
Theorem lifetime_cap (jwt : str) (certs : list (str * str))
  (audience : option str) (now : Z) (signed signature json_body : str)
  (parsed : json) (iat exp : Z) :
parse_token jwt = Return (signed, signature, json_body, parsed) ->
check_signature certs signed signature = Return true ->
dict_get parsed (lit "iat") = Return (JInt iat) ->
dict_get parsed (lit "exp") = Return (JInt exp) ->
exp >= now + 86400 ->
MAX_TOKEN_LIFETIME_SECS = 86400 /\
verify_signed_jwt_with_certs jwt certs audience now =
  Raise (AppIdentityError (ExpTooFarInFuture json_body)) /\
fails_with (verify_signed_jwt_with_certs jwt certs audience now)
  TokenLifetimeExceededError.
Proof.
intros Hp Hs Hi He Hcap.
assert (Hv : verify_signed_jwt_with_certs jwt certs audience now =
             Raise (AppIdentityError (ExpTooFarInFuture json_body))).
{ rewrite (verify_after_signature _ _ _ _ _ _ _ _ Hp Hs).
  rewrite (check_timestamps_int _ _ _ _ _ Hi He).
  change MAX_TOKEN_LIFETIME_SECS with 86400.
  replace (now + 86400 <=? exp) with true by (symmetry; apply Z.leb_le; lia).
  reflexivity. }
split; [reflexivity|]. split; [exact Hv|].
rewrite Hv. eexists; split; reflexivity.
Qed.

(** C9: [exp] is never compared with [iat]: a token whose signature
  verifies and whose [exp] lies before its [iat] is accepted as long as
  [now] is within the skew of both, as for [iat = now + 300] and
  [exp = now - 300]. *)
Theorem exp_before_iat_accepted (jwt : str) (certs : list (str * str))
  (now : Z) (signed signature json_body : str) (parsed : json)
  (iat exp : Z) :
parse_token jwt = Return (signed, signature, json_body, parsed) ->
check_signature certs signed signature = Return true ->
dict_get parsed (lit "iat") = Return (JInt iat) ->
dict_get parsed (lit "exp") = Return (JInt exp) ->
exp < iat ->
iat - CLOCK_SKEW_SECS <= now <= exp + CLOCK_SKEW_SECS ->
verify_signed_jwt_with_certs jwt certs None now = Return parsed.
Proof.
intros Hp Hs Hi He Hlt [H1 H2].
rewrite (verify_after_signature _ _ _ _ _ _ _ _ Hp Hs).
rewrite (check_timestamps_int _ _ _ _ _ Hi He).
unfold CLOCK_SKEW_SECS, MAX_TOKEN_LIFETIME_SECS in *.
replace (now + 86400 <=? exp) with false by (symmetry; apply Z.leb_gt; lia).
replace (now <? iat - 300) with false by (symmetry; apply Z.ltb_ge; lia).
replace (exp + 300 <? now) with false by (symmetry; apply Z.ltb_ge; lia).
reflexivity.
Qed.

End Verification.

Lemma clock_skew_window_witness :
  Sample.verify Sample.jwt_fresh Sample.rotation None Sample.now
  = Return (Sample.claims (JInt 100000) (JInt 103600))
  <-> 100000 - 300 <= Sample.now <= 103600 + 300.
Proof.
  refine (proj1 (proj2 (clock_skew_window (J:=Sample.json_lib) (B:=Sample.backend)
           Sample.jwt_fresh Sample.rotation None Sample.now _ _ _ _ 100000 103600
           _ _ _ _ _ _))).
  - vm_compute. reflexivity.
  - vm_compute. reflexivity.
  - reflexivity.
  - reflexivity.
  - vm_compute. reflexivity.
  - reflexivity.
Defined.

Lemma lifetime_cap_witness :
  Sample.verify Sample.jwt_long Sample.rotation None Sample.now
  = Raise (AppIdentityError
             (ExpTooFarInFuture (Sample.print (Sample.claims (JInt Sample.now)
                                                 (JInt (Sample.now + 86401)))))).
Proof.
  refine (proj1 (proj2 (lifetime_cap (J:=Sample.json_lib) (B:=Sample.backend)
           Sample.jwt_long Sample.rotation None Sample.now _ _ _ _
           Sample.now (Sample.now + 86401) _ _ _ _ _))).
  - vm_compute. reflexivity.
  - vm_compute. reflexivity.
  - reflexivity.
  - reflexivity.
  - vm_compute. discriminate.
Defined.

Lemma exp_before_iat_accepted_witness :
  Sample.verify Sample.jwt_reversed Sample.rotation None Sample.now
  = Return (Sample.claims (JInt (Sample.now + 300)) (JInt (Sample.now - 300))).
Proof.
  refine (exp_before_iat_accepted (J:=Sample.json_lib) (B:=Sample.backend)
           Sample.jwt_reversed Sample.rotation Sample.now _ _ _ _
           (Sample.now + 300) (Sample.now - 300) _ _ _ _ _ _).
  - vm_compute. reflexivity.
  - vm_compute. reflexivity.
  - reflexivity.
  - reflexivity.
  - vm_compute. reflexivity.
  - vm_compute. split; discriminate.
Defined.

(** ** Presence of claims and the audience *)

Lemma py_ne_str_other (aud : json) (audience : str) :
  aud <> JString audience -> py_ne_str aud audience = true.
Proof.
  intros Hne. destruct aud; try reflexivity. cbn [py_ne_str].
  destruct (str_eqb x audience) eqn:E; [|reflexivity].
  apply str_eqb_eq in E. subst x. exfalso. apply Hne. reflexivity.
Qed.

Lemma py_ne_str_same (audience : str) :
  py_ne_str (JString audience) audience = false.
Proof. cbn [py_ne_str]. rewrite str_eqb_refl. reflexivity. Qed.

Lemma is_None_other (v : json) : v <> JNull -> is_None v = false.
Proof. destruct v; intros H; try reflexivity. exfalso. apply H. reflexivity. Qed.

Section Claims.
Context {J : JSONLib} {B : Backend}.

(** C6, as the code has it: a token whose signature verifies fails for a
  missing claim when [iat] is absent or null and, [iat] being an integer,
  when [exp] is absent or null.  Whether a claim that is present is an
  integer is not checked. *)
Theorem missing_claims (jwt : str) (certs : list (str * str))
  (audience : option str) (now : Z) (signed signature json_body : str)
  (parsed : json) :
parse_token jwt = Return (signed, signature, json_body, parsed) ->
check_signature certs signed signature = Return true ->
let verify := verify_signed_jwt_with_certs jwt certs audience now in
(dict_get parsed (lit "iat") = Return JNull ->
 verify = Raise (AppIdentityError (NoIatField json_body))
 /\ fails_with verify MissingClaimError) /\
(forall iat n, dict_get parsed (lit "iat") = Return iat ->
 as_number iat = Some n ->
 dict_get parsed (lit "exp") = Return JNull ->
 verify = Raise (AppIdentityError (NoExpField json_body))
 /\ fails_with verify MissingClaimError).
Proof.
intros Hp Hs verify. unfold verify.
rewrite (verify_after_signature _ _ _ _ _ _ _ _ Hp Hs).
unfold check_timestamps. split.
- intros Hi. rewrite Hi. cbn [bind is_None].
  split; [reflexivity|]. eexists; split; reflexivity.
- intros iat n Hi Hn He. rewrite Hi. cbn [bind].
  replace (is_None iat) with false by (destruct iat; try reflexivity; discriminate Hn).
  unfold py_sub. rewrite Hn. cbn [bind]. rewrite He. cbn [bind is_None].
  split; [reflexivity|]. eexists; split; reflexivity.
Qed.

(** C7: for a token that passes the signature and the timestamp checks,
  verification with no expected audience returns the payload whatever its
  [aud]; with an expected audience it fails for a missing claim when
  [aud] is absent (or null), fails for a wrong recipient when [aud] is
  present and differs, and returns the payload when [aud] equals it. *)
Theorem audience_check (jwt : str) (certs : list (str * str)) (now : Z)
  (signed signature json_body : str) (parsed aud : json) :
parse_token jwt = Return (signed, signature, json_body, parsed) ->
check_signature certs signed signature = Return true ->
check_timestamps json_body parsed now = Return tt ->
dict_get parsed (lit "aud") = Return aud ->
verify_signed_jwt_with_certs jwt certs None now = Return parsed /\
forall audience : str,
  let verify := verify_signed_jwt_with_certs jwt certs (Some audience) now in
  (aud = JNull ->
   verify = Raise (AppIdentityError (NoAudField json_body))
   /\ fails_with verify MissingClaimError) /\
  (aud <> JNull -> aud <> JString audience ->
   verify = Raise (AppIdentityError (WrongRecipient aud audience json_body))
   /\ fails_with verify AudienceMismatchError) /\
  (aud = JString audience -> verify = Return parsed).
Proof.
intros Hp Hs Ht Ha. split.
- rewrite (verify_after_signature _ _ _ _ _ _ _ _ Hp Hs), Ht. reflexivity.
- intros audience verify. unfold verify.
  rewrite (verify_after_signature _ _ _ _ _ _ _ _ Hp Hs), Ht.
  cbn [bind check_audience]. rewrite Ha. cbn [bind].
  split; [|split].
  + intros ->. cbn [is_None bind].
    split; [reflexivity|]. eexists; split; reflexivity.
  + intros Hnull Hne. rewrite (is_None_other _ Hnull).
    rewrite (py_ne_str_other _ _ Hne). cbn [bind].
    split; [reflexivity|]. eexists; split; reflexivity.
  + intros ->. cbn [is_None]. rewrite py_ne_str_same. reflexivity.
Qed.

(** C5, as the code has it: a token that does not split into exactly three
  segments on [.] is malformed, and so is one whose signature and payload
  segments decode and whose decoded payload [loads] rejects.  Nothing is
  said of characters outside the alphabet. *)
Theorem malformed_token (jwt : str) (certs : list (str * str))
  (audience : option str) (now : Z) :
let verify := verify_signed_jwt_with_certs jwt certs audience now in
(len (split "." jwt) <> 3 ->
 verify = Raise (AppIdentityError (WrongNumberOfSegments jwt))
 /\ fails_with verify MalformedTokenError) /\
(forall s0 s1 s2 signature json_body e,
 split "." jwt = [s0; s1; s2] ->
 _urlsafe_b64decode s2 = Return signature ->
 _urlsafe_b64decode s1 = Return json_body ->
 loads json_body = Raise e ->
 verify = Raise (AppIdentityError (CantParseToken json_body))
 /\ fails_with verify MalformedTokenError).
Proof.
intros verify. unfold verify, verify_signed_jwt_with_certs, parse_token.
split.
- intros Hlen.
  replace (len (split "." jwt) =? 3) with false
    by (symmetry; apply Z.eqb_neq; exact Hlen).
  cbn [negb bind]. split; [reflexivity|]. eexists; split; reflexivity.
- intros s0 s1 s2 signature json_body e Hsplit H2 H1 Hl.
  rewrite Hsplit. cbn [len length nth]. cbn [Z.of_nat Pos.of_succ_nat Pos.succ Z.eqb Pos.eqb negb].
  rewrite H2. cbn [bind]. rewrite H1. cbn [bind]. rewrite Hl.
  cbn [try_except bind]. split; [reflexivity|]. eexists; split; reflexivity.
Qed.

End Claims.

Lemma missing_claims_witness :
  Sample.verify Sample.jwt_no_iat Sample.rotation None Sample.now
  = Raise (AppIdentityError
             (NoIatField (Sample.print (JObject [(lit "exp", JInt 103600)])))).
Proof.
  refine (proj1 (proj1 (missing_claims (J:=Sample.json_lib) (B:=Sample.backend)
           Sample.jwt_no_iat Sample.rotation None Sample.now _ _ _ _ _ _) _)).
  - vm_compute. reflexivity.
  - vm_compute. reflexivity.
  - reflexivity.
Defined.

(** C6 fails as stated: the payload [{iat: abc, exp: 103600}] has an [iat]
    that is present and is not an integer; its token passes the signature
    check and verification ends in a [TypeError], raised by
    [iat - CLOCK_SKEW_SECS], not in a missing-claim failure. *)
Lemma missing_claims_counterexample :
  exists signed signature json_body,
    parse_token (J:=Sample.json_lib) Sample.jwt_text_iat
    = Return (signed, signature, json_body,
              Sample.claims (JString (lit "abc")) (JInt 103600))
    /\ check_signature (B:=Sample.backend) Sample.rotation signed signature
       = Return true
    /\ Sample.verify Sample.jwt_text_iat Sample.rotation None Sample.now
       = Raise TypeError
    /\ ~ fails_with
           (Sample.verify Sample.jwt_text_iat Sample.rotation None Sample.now)
           MissingClaimError.
Proof.
  do 3 eexists. split; [vm_compute; reflexivity|].
  split; [vm_compute; reflexivity|].
  assert (Hv : Sample.verify Sample.jwt_text_iat Sample.rotation None Sample.now
               = Raise TypeError) by (vm_compute; reflexivity).
  split; [exact Hv|].
  rewrite Hv. intros [m [Hm _]]. discriminate Hm.
Qed.

Lemma audience_check_witness :
  Sample.verify Sample.jwt_aud Sample.rotation None Sample.now
  = Return (Sample.with_aud 100000 103600 (lit "svc-x"))
  /\ Sample.verify Sample.jwt_aud Sample.rotation (Some (lit "svc-x")) Sample.now
     = Return (Sample.with_aud 100000 103600 (lit "svc-x"))
  /\ Sample.verify Sample.jwt_aud Sample.rotation (Some (lit "svc-y")) Sample.now
     = Raise (AppIdentityError
                (WrongRecipient (JString (lit "svc-x")) (lit "svc-y")
                   (Sample.print (Sample.with_aud 100000 103600 (lit "svc-x"))))).
Proof.
  assert (H : _) by
    (refine (audience_check (J:=Sample.json_lib) (B:=Sample.backend)
               Sample.jwt_aud Sample.rotation Sample.now _ _ _
               (Sample.with_aud 100000 103600 (lit "svc-x"))
               (JString (lit "svc-x")) _ _ _ _);
     vm_compute; reflexivity).
  destruct H as [Hnone Hsome].
  split; [exact Hnone|]. split.
  - apply (Hsome (lit "svc-x")). reflexivity.
  - apply (Hsome (lit "svc-y")); discriminate.
Defined.

(** C5 fails as stated: the signature segment of [jwt_junk] ends in [!],
    which is not a base64url character; the decoder discards it and the
    token is accepted. *)
Lemma malformed_token_counterexample :
  split "." Sample.jwt_junk
  = [lit "eyJ0eXAiOiJKV1QiLCJhbGciOiJSUzI1NiJ9";
     lit "eyJpYXQiOjEwMDAwMCwiZXhwIjoxMDM2MDB9";
     lit "a2V5Qt4!"]
  /\ is_base64url "!" = false
  /\ Sample.verify Sample.jwt_junk Sample.rotation None Sample.now
     = Return (Sample.claims (JInt 100000) (JInt 103600))
  /\ ~ fails_with
         (Sample.verify Sample.jwt_junk Sample.rotation None Sample.now)
         MalformedTokenError.
Proof.
  split; [vm_compute; reflexivity|].
  split; [vm_compute; reflexivity|].
  assert (Hv : Sample.verify Sample.jwt_junk Sample.rotation None Sample.now
               = Return (Sample.claims (JInt 100000) (JInt 103600)))
    by (vm_compute; reflexivity).
  split; [exact Hv|].
  rewrite Hv. intros [m [Hm _]]. discriminate Hm.
Qed.

(** ** The two verifiers *)

(** C8: [verify] of either class always returns a boolean: [true] exactly
    when the library call returns (for OpenSSL) or returns [true] (for
    PyCrypto), and [false] when the library call raises, whatever it
    raises. *)
Theorem verifier_verify_total :
  (forall (L : OpenSSL) (pubkey : ossl_key L) (message signature : str),
     OpenSSLVerifier_verify L pubkey message signature
     = Return (match crypto_verify L pubkey signature message with
               | Return _ => true
               | Raise _ => false
               end))
  /\ (forall (L : PyCrypto) (pubkey : rsa_key L) (message signature : str),
        PyCryptoVerifier_verify L pubkey message signature
        = Return (match pkcs1_verify L pubkey message signature with
                  | Return b => b
                  | Raise _ => false
                  end)).
Proof.
  split; intros L pubkey message signature.
  - unfold OpenSSLVerifier_verify.
    destruct (crypto_verify L pubkey signature message); reflexivity.
  - unfold PyCryptoVerifier_verify.
    destruct (pkcs1_verify L pubkey message signature); reflexivity.
Qed.

Lemma selected_verify_total (openssl : option OpenSSL)
    (pycrypto : option PyCrypto) (B : Backend) :
  select_backend openssl pycrypto = Return B ->
  forall (verifier : Verifier) (message signature : str),
    exists b, Verifier_verify verifier message signature = Return b.
Proof.
  intros Hsel.
  destruct openssl as [L|]; [|destruct pycrypto as [L|]];
    cbn [select_backend] in Hsel; try discriminate Hsel;
    injection Hsel as <-; intros verifier message signature;
    cbn [Verifier_verify OpenSSLBackend PyCryptoBackend].
  - unfold OpenSSLVerifier_verify.
    destruct (crypto_verify L verifier signature message); eexists; reflexivity.
  - unfold PyCryptoVerifier_verify.
    destruct (pkcs1_verify L verifier message signature); eexists; reflexivity.
Qed.

(** ** The signature step *)

Section SignatureStep.
Context {J : JSONLib} {B : Backend}.
Hypothesis verify_total :
forall (verifier : Verifier) (message signature : str),
  exists b, Verifier_verify verifier message signature = Return b.

Lemma check_signature_spec (certs : list (str * str)) (signed signature : str) :
all_certs_parse certs ->
exists verified,
  check_signature certs signed signature = Return verified
  /\ (verified = true <-> some_cert_verifies certs signed signature).
Proof.
induction certs as [|[keyname pem] rest IH]; intros Hall.
- exists false. split; [reflexivity|]. split; [discriminate|].
  intros [k [p [v [Hin _]]]]. destruct Hin.
- destruct (Hall keyname pem (or_introl eq_refl)) as [verifier Hload].
  destruct (verify_total verifier signed signature) as [ok Hok].
  cbn [check_signature]. rewrite Hload. cbn [bind]. rewrite Hok. cbn [bind].
  destruct ok.
  + exists true. split; [reflexivity|]. split; [|reflexivity].
    intros _. exists keyname, pem, verifier.
    split; [left; reflexivity|]. split; assumption.
  + destruct IH as [verified [Hrest Hiff]].
    { intros k p Hin. apply (Hall k p). right. exact Hin. }
    exists verified. split; [exact Hrest|].
    rewrite Hiff. split.
    * intros [k [p [v [Hin Hv]]]]. exists k, p, v.
      split; [right; exact Hin | exact Hv].
    * intros [k [p [v [[Heq | Hin] [Hl Hv]]]]].
      -- injection Heq as <- <-. rewrite Hload in Hl. injection Hl as <-.
         rewrite Hok in Hv. discriminate Hv.
      -- exists k, p, v. split; [exact Hin|]. split; assumption.
Qed.

Lemma check_signature_permutation (certs certs' : list (str * str))
  (signed signature : str) :
all_certs_parse certs -> Permutation certs certs' ->
check_signature certs' signed signature
= check_signature certs signed signature.
Proof.
intros Hall Hperm.
assert (Hall' : all_certs_parse certs').
{ intros k p Hin. apply (Hall k p).
  apply (Permutation_in _ (Permutation_sym Hperm)). exact Hin. }
destruct (check_signature_spec certs signed signature Hall) as [b [Hb Hiff]].
destruct (check_signature_spec certs' signed signature Hall')
  as [b' [Hb' Hiff']].
rewrite Hb, Hb'. f_equal.
assert (Hsame : some_cert_verifies certs' signed signature
                <-> some_cert_verifies certs signed signature).
{ split; intros [k [p [v [Hin Hv]]]]; exists k, p, v; split; try exact Hv.
  - apply (Permutation_in _ (Permutation_sym Hperm)). exact Hin.
  - apply (Permutation_in _ Hperm). exact Hin. }
destruct b, b'; try reflexivity.
- apply (proj2 Hiff'), (proj2 Hsame), (proj1 Hiff). reflexivity.
- symmetry. apply (proj2 Hiff), (proj1 Hsame), (proj1 Hiff'). reflexivity.
Qed.

End SignatureStep.

(** C2, as the code has it: for a well-formed token and a certificate set
    all of whose entries can be loaded, the signature step succeeds exactly
    when at least one certificate verifies the signature over the first two
    segments joined by a dot; the result of verification does not depend on
    the order of iteration; and when no certificate verifies, an empty set
    included, verification fails for an invalid signature. *)
Theorem signature_step (openssl : option OpenSSL) (pycrypto : option PyCrypto)
    (B : Backend) (J : JSONLib) (jwt : str) (certs : list (str * str))
    (audience : option str) (now : Z) (signed signature json_body : str)
    (parsed : json) :
  select_backend openssl pycrypto = Return B ->
  parse_token jwt = Return (signed, signature, json_body, parsed) ->
  all_certs_parse certs ->
  signed = nth 0 (split "." jwt) [] ++ "."%char :: nth 1 (split "." jwt) [] /\
  (check_signature certs signed signature = Return true
   <-> some_cert_verifies certs signed signature) /\
  (~ some_cert_verifies certs signed signature ->
   verify_signed_jwt_with_certs jwt certs audience now
   = Raise (AppIdentityError (InvalidTokenSignature jwt))
   /\ fails_with (verify_signed_jwt_with_certs jwt certs audience now)
        InvalidSignatureError) /\
  (forall certs', Permutation certs certs' ->
   verify_signed_jwt_with_certs jwt certs' audience now
   = verify_signed_jwt_with_certs jwt certs audience now).
Proof.
  intros Hsel Hp Hall.
  pose proof (selected_verify_total _ _ _ Hsel) as Htotal.
  destruct (check_signature_spec Htotal certs signed signature Hall)
    as [verified [Hcheck Hiff]].
  split.
  { unfold parse_token in Hp.
    destruct (negb (len (split "." jwt) =? 3)); [discriminate Hp|].
    destruct (_urlsafe_b64decode (nth 2 (split "." jwt) [])); [|discriminate Hp].
    destruct (_urlsafe_b64decode (nth 1 (split "." jwt) [])); [|discriminate Hp].
    cbn [bind] in Hp.
    destruct (try_except _ _); [|discriminate Hp].
    cbn [bind] in Hp. injection Hp as <- _ _ _. reflexivity. }
  split.
  { rewrite Hcheck. rewrite <- Hiff. split; intros H.
    - injection H as ->. reflexivity.
    - rewrite H. reflexivity. }
  split.
  { intros Hnone.
    assert (Hv : verify_signed_jwt_with_certs jwt certs audience now
                 = Raise (AppIdentityError (InvalidTokenSignature jwt))).
    { unfold verify_signed_jwt_with_certs. rewrite Hp. cbn [bind].
      rewrite Hcheck. cbn [bind]. destruct verified; [|reflexivity].
      exfalso. apply Hnone, Hiff. reflexivity. }
    split; [exact Hv|]. rewrite Hv. eexists; split; reflexivity. }
  intros certs' Hperm. unfold verify_signed_jwt_with_certs.
  rewrite Hp. cbn [bind].
  rewrite (check_signature_permutation Htotal certs certs' _ _ Hall Hperm).
  reflexivity.
Qed.

Lemma signature_step_witness :
  Sample.verify Sample.jwt_fresh (rev Sample.rotation) None Sample.now
  = Sample.verify Sample.jwt_fresh Sample.rotation None Sample.now.
Proof.
  refine (proj2 (proj2 (proj2 (signature_step (Some Sample.openssl) None
           Sample.backend Sample.json_lib Sample.jwt_fresh Sample.rotation
           None Sample.now _ _ _ _ _ _ _))) (rev Sample.rotation)
           (Permutation_rev Sample.rotation)).
  - reflexivity.
  - vm_compute. reflexivity.
  - intros keyname pem [H | [H | []]]; injection H as <- <-;
      eexists; vm_compute; reflexivity.
Defined.

(** C2 fails as stated: in [mixed] the certificate [b] verifies the
    signature of [jwt_fresh], yet iterating [a] first ends in the error that
    loading [a] as a certificate raises, while iterating [b] first succeeds;
    and for the set that holds [a] alone, where no certificate verifies, the
    failure is that same error and not an invalid signature. *)
Lemma signature_step_counterexample :
  exists signed signature json_body parsed,
    parse_token (J:=Sample.json_lib) Sample.jwt_fresh
    = Return (signed, signature, json_body, parsed)
    /\ some_cert_verifies (B:=Sample.backend) Sample.mixed signed signature
    /\ Permutation Sample.mixed (rev Sample.mixed)
    /\ Sample.verify Sample.jwt_fresh Sample.mixed None Sample.now
       = Raise Sample.crypto_Error
    /\ Sample.verify Sample.jwt_fresh (rev Sample.mixed) None Sample.now
       = Return parsed
    /\ ~ some_cert_verifies (B:=Sample.backend)
           [(lit "a", Sample.pubkeyA)] signed signature
    /\ ~ fails_with
           (Sample.verify Sample.jwt_fresh [(lit "a", Sample.pubkeyA)]
              None Sample.now)
           InvalidSignatureError.
Proof.
  do 4 eexists. split; [vm_compute; reflexivity|].
  split.
  { exists (lit "b"), Sample.certB, (lit "keyB").
    split; [right; left; reflexivity|].
    split; vm_compute; reflexivity. }
  split; [apply Permutation_rev|].
  split; [vm_compute; reflexivity|].
  split; [vm_compute; reflexivity|].
  split.
  { intros [k [p [v [[H | []] [Hl _]]]]]. injection H as <- <-.
    vm_compute in Hl. discriminate Hl. }
  intros [m [Hm _]]. vm_compute in Hm. discriminate Hm.
Qed.

(** ** Making a token and verifying it *)

Section RoundTrip.
Context {J : JSONLib} {B : Backend}.

Lemma parse_token_join (header body signature : str) (parsed : json) :
loads body = Return parsed ->
parse_token
  (join "." [_urlsafe_b64encode header; _urlsafe_b64encode body;
             _urlsafe_b64encode signature])
= Return (join "." [_urlsafe_b64encode header; _urlsafe_b64encode body],
          signature, body, parsed).
Proof.
intros Hl. unfold parse_token.
rewrite split_join3 by apply _urlsafe_b64encode_no_dot.
change (negb (len [_; _; _] =? 3)) with false. cbv iota. cbn [nth].
rewrite !_urlsafe_b64decode_encode. cbn [bind]. rewrite Hl. reflexivity.
Qed.

(** C1, as the code has it: for a payload whose [iat] and [exp] are integers
    with [iat - 300 <= exp < iat + 86400] (so every [exp] from [iat] up to
    the lifetime cap), which the JSON library reads back as it wrote it, and
    a signer whose signatures are accepted by the verifier that
    [Verifier.from_string(pem, True)] returns, the token that
    [make_signed_jwt] returns is verified against [{kid: pem}] with no
    expected audience at [now = iat], and the result is the payload.  The
    verifier has to be the one loaded from [pem] in certificate mode: that
    is how [verify_signed_jwt_with_certs] obtains it. *)
Theorem make_verify_roundtrip (signer : Signer) (verifier : Verifier)
  (payload : json) (kid pem : str) (iat exp : Z) (jwt : str) :
dict_get payload (lit "iat") = Return (JInt iat) ->
dict_get payload (lit "exp") = Return (JInt exp) ->
iat - CLOCK_SKEW_SECS <= exp < iat + MAX_TOKEN_LIFETIME_SECS ->
loads (dumps payload) = Return payload ->
Verifier_from_string pem true = Return verifier ->
(forall message signature,
   Signer_sign signer message = Return signature ->
   Verifier_verify verifier message signature = Return true) ->
make_signed_jwt signer payload = Return jwt ->
verify_signed_jwt_with_certs jwt [(kid, pem)] None iat = Return payload.
Proof.
intros Hi He [Hlo Hhi] Hl Hv Hpair Hmake.
unfold make_signed_jwt, _json_encode in Hmake.
destruct (Signer_sign signer _) as [signature|] eqn:Hsig;
  cbn [bind] in Hmake; [|discriminate Hmake].
apply Return_inj in Hmake. subst jwt. cbn [app].
rewrite (verify_after_signature _ _ _ _ _ _ _ _
           (parse_token_join _ _ signature _ Hl)).
- rewrite (check_timestamps_int _ _ _ _ _ Hi He).
  unfold CLOCK_SKEW_SECS, MAX_TOKEN_LIFETIME_SECS in *.
  replace (iat + 86400 <=? exp) with false by (symmetry; apply Z.leb_gt; lia).
  replace (iat <? iat - 300) with false by (symmetry; apply Z.ltb_ge; lia).
  replace (exp + 300 <? iat) with false by (symmetry; apply Z.ltb_ge; lia).
  reflexivity.
- cbn [check_signature]. rewrite Hv. cbn [bind].
  rewrite (Hpair _ _ Hsig). reflexivity.
Qed.

End RoundTrip.

Lemma make_verify_roundtrip_witness :
  Sample.verify Sample.jwt_fresh [(lit "b", Sample.certB)] None 100000
  = Return (Sample.claims (JInt 100000) (JInt 103600)).
Proof.
  refine (make_verify_roundtrip (J:=Sample.json_lib) (B:=Sample.backend)
            Sample.signerB (lit "keyB") _ (lit "b") Sample.certB
            100000 103600 Sample.jwt_fresh _ _ _ _ _ _ _).
  - reflexivity.
  - reflexivity.
  - unfold CLOCK_SKEW_SECS, MAX_TOKEN_LIFETIME_SECS. lia.
  - vm_compute. reflexivity.
  - vm_compute. reflexivity.
  - intros message signature H. injection H as <-.
    cbn [Verifier_verify Sample.backend OpenSSLBackend].
    unfold OpenSSLVerifier_verify. cbn [crypto_verify Sample.openssl].
    rewrite str_eqb_refl. reflexivity.
  - vm_compute. reflexivity.
Defined.

(** C1 fails as stated: the signer [signerB] and the verifier that
    [PyCryptoVerifier.from_string(pubkeyB, False)] returns are derived from
    the same key, and the verifier accepts every signature of the signer;
    yet the token made for [{iat: 100000, exp: 103600}] is not verified
    against [{b: pubkeyB}] at [now = iat]: the PyCrypto classes raise
    [NotImplementedError], because the key is loaded in certificate mode,
    and the OpenSSL classes raise the error of [load_certificate], because a
    bare public key is not a certificate. *)
Lemma make_verify_roundtrip_counterexample :
  Verifier_from_string (Backend:=PyCryptoBackend Sample.pycrypto)
    Sample.pubkeyB false
  = Return (lit "keyB")
  /\ (forall message signature,
        Signer_sign (Backend:=PyCryptoBackend Sample.pycrypto)
          Sample.signerB message = Return signature ->
        Verifier_verify (Backend:=PyCryptoBackend Sample.pycrypto)
          (lit "keyB") message signature = Return true)
  /\ make_signed_jwt (J:=Sample.json_lib) (B:=PyCryptoBackend Sample.pycrypto)
       Sample.signerB (Sample.claims (JInt 100000) (JInt 103600))
     = Return Sample.jwt_fresh
  /\ verify_signed_jwt_with_certs (J:=Sample.json_lib)
       (B:=PyCryptoBackend Sample.pycrypto) Sample.jwt_fresh
       [(lit "b", Sample.pubkeyB)] None 100000
     = Raise NotImplementedError
  /\ Sample.make Sample.signerB (Sample.claims (JInt 100000) (JInt 103600))
     = Return Sample.jwt_fresh
  /\ Sample.verify Sample.jwt_fresh [(lit "b", Sample.pubkeyB)] None 100000
     = Raise Sample.crypto_Error.
Proof.
  split; [vm_compute; reflexivity|].
  split.
  { intros message signature H. apply Return_inj in H. subst signature.
    cbn [Verifier_verify PyCryptoBackend]. unfold PyCryptoVerifier_verify.
    cbn [pkcs1_verify Sample.pycrypto try_except].
    rewrite str_eqb_refl. reflexivity. }
  repeat split; vm_compute; reflexivity.
Qed.

(** ** The base64url helpers *)

(** C10: decoding what [_urlsafe_b64encode] returns gives the bytes back;
    this includes the encodings whose length is a multiple of four, to
    which [_urlsafe_b64decode] appends four pad characters. *)
Theorem urlsafe_b64_roundtrip (raw_bytes : str) :
  _urlsafe_b64decode (_urlsafe_b64encode raw_bytes) = Return raw_bytes
  /\ (len (_urlsafe_b64encode raw_bytes) mod 4 = 0 ->
      padded (_urlsafe_b64encode raw_bytes)
      = _urlsafe_b64encode raw_bytes ++ lit "====").
Proof.
  split; [apply _urlsafe_b64decode_encode|].
  intros H. unfold padded. rewrite H. reflexivity.
Qed.

Lemma urlsafe_b64_roundtrip_witness :
  _urlsafe_b64encode (lit "foo") = lit "Zm9v"
  /\ padded (lit "Zm9v") = lit "Zm9v===="
  /\ _urlsafe_b64decode (lit "Zm9v") = Return (lit "foo").
Proof.
  split; [reflexivity|]. split.
  - exact (proj2 (urlsafe_b64_roundtrip (lit "foo")) eq_refl).
  - exact (proj1 (urlsafe_b64_roundtrip (lit "foo"))).
Defined.

(** * Further properties of the module *)

(** ** The encoding helper *)

Lemma _urlsafe_b64encode_last1 (x : ascii) :
  _urlsafe_b64encode [x]
  = [to_urlsafe (b2a (Z.shiftr (ord x) 2));
     to_urlsafe (b2a (Z.shiftl (Z.land (ord x) 3) 4))].
Proof.
  pose proof (ord_range x) as Hx.
  assert (H2 : 0 <= Z.shiftl (Z.land (ord x) 3) 4 < 64)
    by (rewrite sextet2_last; dlia).
  destruct (sextet_char_all _ (sx1_range x)). destruct (sextet_char_all _ H2).
  unfold _urlsafe_b64encode, urlsafe_b64encode, translate2.
  cbn [b2a_base64 map]. fold to_urlsafe. fold (sx1 x).
  rewrite !rstrip_cons by assumption. reflexivity.
Qed.

Lemma _urlsafe_b64encode_last2 (x y : ascii) :
  _urlsafe_b64encode [x; y]
  = [to_urlsafe (b2a (sx1 x)); to_urlsafe (b2a (sx2 x y));
     to_urlsafe (b2a (Z.shiftl (Z.land (ord y) 15) 2))].
Proof.
  pose proof (ord_range y) as Hy.
  assert (H3 : 0 <= Z.shiftl (Z.land (ord y) 15) 2 < 64)
    by (rewrite sextet3_last; dlia).
  destruct (sextet_char_all _ (sx1_range x)).
  destruct (sextet_char_all _ (sx2_range x y)).
  destruct (sextet_char_all _ H3).
  unfold _urlsafe_b64encode, urlsafe_b64encode, translate2.
  cbn [b2a_base64 map]. fold to_urlsafe. fold (sx1 x) (sx2 x y).
  rewrite !rstrip_cons by assumption. reflexivity.
Qed.

Lemma sextet_is_base64url (v : Z) :
  0 <= v < 64 -> is_base64url (to_urlsafe (b2a v)) = true.
Proof.
  intros Hv.
  assert (Hall : forallb (fun n => is_base64url (to_urlsafe (b2a (Z.of_nat n))))
                   (seq 0 64) = true)
    by (vm_compute; reflexivity).
  rewrite forallb_forall in Hall.
  rewrite <- (Z2Nat.id v) by lia. apply Hall, in_seq. lia.
Qed.

(** X1: every character of an encoded segment is a base64url character:
    a letter, a digit, [-] or [_]; in particular the result holds no pad
    character, no dot and none of [+] and [/]. *)
Theorem _urlsafe_b64encode_alphabet (raw_bytes : str) :
  Forall (fun c => is_base64url c = true) (_urlsafe_b64encode raw_bytes)
  /\ ~ In "="%char (_urlsafe_b64encode raw_bytes)
  /\ ~ In "+"%char (_urlsafe_b64encode raw_bytes)
  /\ ~ In "/"%char (_urlsafe_b64encode raw_bytes).
Proof.
  assert (Hall : Forall (fun c => is_base64url c = true)
                   (_urlsafe_b64encode raw_bytes)).
  { induction raw_bytes as [| x | x y | x y z rest IH] using bytes_ind3.
    - constructor.
    - rewrite _urlsafe_b64encode_last1.
      pose proof (ord_range x).
      repeat apply Forall_cons; try apply Forall_nil;
        apply sextet_is_base64url; [rewrite sextet1 | rewrite sextet2_last]; dlia.
    - rewrite _urlsafe_b64encode_last2.
      pose proof (ord_range y).
      repeat apply Forall_cons; try apply Forall_nil;
        apply sextet_is_base64url;
        [apply sx1_range | apply sx2_range | rewrite sextet3_last; dlia].
    - rewrite _urlsafe_b64encode_group.
      repeat apply Forall_cons; try exact IH; apply sextet_is_base64url;
        [apply sx1_range | apply sx2_range | apply sx3_range | apply sx4_range]. }
  split; [exact Hall|].
  rewrite Forall_forall in Hall.
  repeat split; intros Hin; apply Hall in Hin; vm_compute in Hin;
    discriminate Hin.
Qed.

(** X2: the encoding of [n] bytes has [(4 n + 2) / 3] characters. *)
Theorem _urlsafe_b64encode_length (raw_bytes : str) :
  len (_urlsafe_b64encode raw_bytes) = (4 * len raw_bytes + 2) / 3.
Proof.
  induction raw_bytes as [| x | x y | x y z rest IH] using bytes_ind3.
  - reflexivity.
  - rewrite _urlsafe_b64encode_last1. reflexivity.
  - rewrite _urlsafe_b64encode_last2. reflexivity.
  - rewrite _urlsafe_b64encode_group. unfold len in *. cbn [length].
    rewrite !Nat2Z.inj_succ. rewrite IH. dlia.
Qed.

(** X3: two byte strings with the same encoding are equal. *)
Theorem _urlsafe_b64encode_injective (a b : str) :
  _urlsafe_b64encode a = _urlsafe_b64encode b -> a = b.
Proof.
  intros H. apply Return_inj.
  rewrite <- (_urlsafe_b64decode_encode a), <- (_urlsafe_b64decode_encode b), H.
  reflexivity.
Qed.

Lemma _urlsafe_b64encode_injective_witness : lit "foo" = lit "foo".
Proof.
  apply (_urlsafe_b64encode_injective (lit "foo") (lit "foo")). reflexivity.
Defined.

(** ** The decoding helper *)

Lemma len_app_repeat (x : str) (c : ascii) (n : Z) :
  0 <= n -> len (x ++ str_mul c n) = len x + n.
Proof.
  intros Hn. unfold len, str_mul.
  rewrite length_app, repeat_length, Nat2Z.inj_add, Z2Nat.id by lia.
  reflexivity.
Qed.

(** X4: the string that is handed to the decoder has a length that is a
    multiple of four, and is always longer than the argument: between one
    and four pad characters are appended, four when the length already is a
    multiple of four. *)
Theorem padded_length (b64string : str) :
  len (padded b64string) mod 4 = 0
  /\ len b64string < len (padded b64string) <= len b64string + 4
  /\ firstn (length b64string) (padded b64string) = b64string
  /\ Forall (fun c => c = "="%char) (skipn (length b64string) (padded b64string)).
Proof.
  unfold padded.
  assert (Hr : 0 <= len b64string mod 4 < 4) by (apply Z.mod_pos_bound; lia).
  rewrite len_app_repeat by lia.
  split; [dlia|]. split; [lia|]. split.
  - rewrite firstn_app, Nat.sub_diag, firstn_all. cbn [firstn].
    apply app_nil_r.
  - rewrite skipn_app, Nat.sub_diag, skipn_all. cbn [skipn app].
    apply Forall_forall. intros c Hc. apply repeat_spec in Hc. exact Hc.
Qed.

(** X5: the decoding helper also reads an encoding that still has its
    padding: what [base64.urlsafe_b64encode] returns decodes to the bytes. *)
Theorem _urlsafe_b64decode_padded_encoding (raw_bytes : str) :
  _urlsafe_b64decode (urlsafe_b64encode raw_bytes) = Return raw_bytes.
Proof.
  induction raw_bytes as [| x | x y | x y z rest IH] using bytes_ind3.
  - reflexivity.
  - pose proof (ord_range x) as Hx.
    assert (H1 : 0 <= Z.shiftr (ord x) 2 < 64) by (rewrite sextet1; dlia).
    assert (H2 : 0 <= Z.shiftl (Z.land (ord x) 3) 4 < 64)
      by (rewrite sextet2_last; dlia).
    destruct (sextet_char_all _ H1). destruct (sextet_char_all _ H2).
    unfold urlsafe_b64encode, translate2. cbn [b2a_base64 map]. fold to_urlsafe.
    rewrite _urlsafe_b64decode_eq. cbn [forallb].
    rewrite sc_ascii0, sc_ascii1.
    change (ord (to_urlsafe BASE64_PAD) <=? 127) with true. cbn [andb].
    unfold padded.
    change (str_mul "=" (4 - len [_; _; _; _] mod 4)) with (lit "====").
    cbn [app map]. rewrite sc_back0, sc_back1.
    rewrite a2b_loop_pos0, a2b_loop_pos1 by assumption.
    change (from_urlsafe (to_urlsafe BASE64_PAD) :: from_urlsafe (to_urlsafe BASE64_PAD)
            :: map from_urlsafe (lit "====")) with (lit "======").
    change (a2b_loop (lit "======") 2 4 ((Z.shiftr (ord x) 2 * 64
              + Z.shiftl (Z.land (ord x) 3) 4) mod 16))
      with (@nil ascii, 0).
    unfold decoded. cbn [Z.eqb negb].
    rewrite sextet1, sextet2_last.
    replace ((ord x / 4 * 64 + ord x mod 4 * 16) / 16) with (ord x) by dlia.
    rewrite chr_ord. reflexivity.
  - pose proof (ord_range x) as Hx. pose proof (ord_range y) as Hy.
    pose proof (sx1_range x) as H1. pose proof (sx2_range x y) as H2.
    assert (H3 : 0 <= Z.shiftl (Z.land (ord y) 15) 2 < 64)
      by (rewrite sextet3_last; dlia).
    destruct (sextet_char_all _ H1). destruct (sextet_char_all _ H2).
    destruct (sextet_char_all _ H3).
    unfold urlsafe_b64encode, translate2. cbn [b2a_base64 map]. fold to_urlsafe.
    fold (sx1 x) (sx2 x y).
    rewrite _urlsafe_b64decode_eq. cbn [forallb].
    rewrite sc_ascii0, sc_ascii1, sc_ascii2.
    change (ord (to_urlsafe BASE64_PAD) <=? 127) with true. cbn [andb].
    unfold padded.
    change (str_mul "=" (4 - len [_; _; _; _] mod 4)) with (lit "====").
    cbn [app map]. rewrite sc_back0, sc_back1, sc_back2.
    rewrite a2b_loop_pos0, a2b_loop_pos1 by assumption.
    rewrite a2b_loop_pos2 by (try assumption; dlia).
    change (from_urlsafe (to_urlsafe BASE64_PAD) :: map from_urlsafe (lit "===="))
      with (lit "=====").
    match goal with
    | |- context [a2b_loop (lit "=====") 3 2 ?lc] =>
      change (a2b_loop (lit "=====") 3 2 lc) with (@nil ascii, 0)
    end.
    unfold decoded. cbn [Z.eqb negb].
    rewrite sx1_eq, sx2_eq, sextet3_last.
    replace ((ord x / 4 * 64 + (ord x mod 4 * 16 + ord y / 16)) / 16)
      with (ord x) by dlia.
    replace ((ord x / 4 * 64 + (ord x mod 4 * 16 + ord y / 16)) mod 16)
      with (ord y / 16) by dlia.
    replace ((ord y / 16 * 64 + ord y mod 16 * 4) / 4) with (ord y) by dlia.
    rewrite !chr_ord. reflexivity.
  - unfold urlsafe_b64encode, translate2 in *. cbn [b2a_base64 map].
    fold to_urlsafe. fold (sx1 x) (sx2 x y) (sx3 y z) (sx4 z).
    apply _urlsafe_b64decode_group, IH.
Qed.

Lemma from_urlsafe_idempotent (c : ascii) :
  from_urlsafe (from_urlsafe c) = from_urlsafe c.
Proof.
  unfold from_urlsafe, translate_char.
  destruct (Ascii.eqb c "-") eqn:E1; [reflexivity|].
  destruct (Ascii.eqb c "_") eqn:E2; [reflexivity|].
  rewrite E1, E2. reflexivity.
Qed.

Lemma from_urlsafe_ascii (c : ascii) :
  (ord (from_urlsafe c) <=? 127) = (ord c <=? 127).
Proof.
  unfold from_urlsafe, translate_char.
  destruct (Ascii.eqb c "-") eqn:E1.
  { apply Ascii.eqb_eq in E1. subst c. reflexivity. }
  destruct (Ascii.eqb c "_") eqn:E2.
  { apply Ascii.eqb_eq in E2. subst c. reflexivity. }
  reflexivity.
Qed.

(** X6: the decoding helper reads the standard alphabet as well as the
    url-safe one: writing [+] for [-] and [/] for [_] in its argument does
    not change its result. *)
Theorem _urlsafe_b64decode_standard_alphabet (b64string : str) :
  _urlsafe_b64decode (translate2 "-" "+" "_" "/" b64string)
  = _urlsafe_b64decode b64string.
Proof.
  rewrite !_urlsafe_b64decode_eq. unfold translate2. fold from_urlsafe.
  assert (Hascii : forallb (fun c => ord c <=? 127) (map from_urlsafe b64string)
                   = forallb (fun c => ord c <=? 127) b64string).
  { induction b64string as [|c rest IH]; [reflexivity|].
    cbn [map forallb]. rewrite from_urlsafe_ascii, IH. reflexivity. }
  rewrite Hascii. destruct (forallb _ b64string); [|reflexivity].
  unfold padded, len. rewrite length_map, !map_app, map_map.
  f_equal. f_equal. f_equal. apply map_ext. intros c.
  apply from_urlsafe_idempotent.
Qed.

Lemma forallb_false_exists {A} (f : A -> bool) (l : list A) :
  forallb f l = false -> exists x, In x l /\ f x = false.
Proof.
  induction l as [|a l IH]; cbn [forallb]; intros H; [discriminate H|].
  destruct (f a) eqn:E.
  - destruct (IH H) as [x [Hin Hx]]. exists x. split; [right; exact Hin | exact Hx].
  - exists a. split; [left; reflexivity | exact E].
Qed.

(** X7: the decoding helper raises nothing but [UnicodeError] and
    [TypeError]: [UnicodeError] exactly when its argument holds a character
    above 127, [TypeError] when the decoder is left with bits of an
    unfinished byte. *)
Theorem _urlsafe_b64decode_errors (b64string : str) :
  (_urlsafe_b64decode b64string = Raise UnicodeError
   <-> exists c, In c b64string /\ 127 < ord c)
  /\ (forall e, _urlsafe_b64decode b64string = Raise e ->
      e = UnicodeError \/
      (e = TypeError /\
       snd (a2b_loop (translate2 "-" "+" "_" "/" (padded b64string)) 0 0 0) <> 0)).
Proof.
  rewrite _urlsafe_b64decode_eq. unfold translate2. fold from_urlsafe.
  destruct (forallb (fun c => ord c <=? 127) b64string) eqn:Hall.
  - unfold decoded.
    destruct (a2b_loop (map from_urlsafe (padded b64string)) 0 0 0)
      as [bin_data leftbits].
    cbn [snd]. split.
    + split.
      * destruct (negb (leftbits =? 0)); discriminate.
      * intros [c [Hin Hc]]. rewrite forallb_forall in Hall.
        apply Hall in Hin. apply Z.leb_le in Hin. lia.
    + intros e He. right.
      destruct (leftbits =? 0) eqn:Hz; cbn [negb] in He; [discriminate He|].
      injection He as <-. split; [reflexivity|]. apply Z.eqb_neq. exact Hz.
  - split.
    + split; [|reflexivity]. intros _.
      destruct (forallb_false_exists _ _ Hall) as [c [Hin Hc]].
      exists c. split; [exact Hin|]. apply Z.leb_gt. exact Hc.
    + intros e He. left. injection He as <-. reflexivity.
Qed.

(** ** What an accepted token guarantees *)

Section Acceptance.
Context {J : JSONLib} {B : Backend}.

Lemma check_signature_sound (certs : list (str * str)) (signed signature : str) :
  check_signature certs signed signature = Return true ->
  some_cert_verifies certs signed signature.
Proof.
  induction certs as [|[keyname pem] rest IH]; cbn [check_signature].
  - discriminate.
  - destruct (Verifier_from_string pem true) as [verifier|] eqn:Hl;
      cbn [bind]; [|discriminate].
    destruct (Verifier_verify verifier signed signature) as [ok|] eqn:Hv;
      cbn [bind]; [|discriminate].
    destruct ok.
    + intros _. exists keyname, pem, verifier.
      split; [left; reflexivity|]. split; assumption.
    + intros H. destruct (IH H) as [k [p [v [Hin Hrest]]]].
      exists k, p, v. split; [right; exact Hin | exact Hrest].
Qed.

Lemma check_signature_app (certs more : list (str * str))
    (signed signature : str) :
  check_signature certs signed signature = Return true ->
  check_signature (certs ++ more) signed signature = Return true.
Proof.
  induction certs as [|[keyname pem] rest IH]; cbn [check_signature app].
  - discriminate.
  - destruct (Verifier_from_string pem true) as [verifier|];
      cbn [bind]; [|discriminate].
    destruct (Verifier_verify verifier signed signature) as [ok|];
      cbn [bind]; [|discriminate].
    destruct ok; [reflexivity | exact IH].
Qed.

Lemma parse_token_inv (jwt signed signature json_body : str) (parsed : json) :
  parse_token jwt = Return (signed, signature, json_body, parsed) ->
  exists s0 s1 s2,
    split "." jwt = [s0; s1; s2]
    /\ signed = s0 ++ "."%char :: s1
    /\ _urlsafe_b64decode s2 = Return signature
    /\ _urlsafe_b64decode s1 = Return json_body
    /\ loads json_body = Return parsed.
Proof.
  unfold parse_token. intros H.
  destruct (len (split "." jwt) =? 3) eqn:Hlen; cbn [negb] in H;
    [|discriminate H].
  apply Z.eqb_eq in Hlen. unfold len in Hlen.
  destruct (split "." jwt) as [|s0 [|s1 [|s2 [|s3 more]]]];
    cbn [length] in Hlen; try lia.
  cbn [nth] in H.
  destruct (_urlsafe_b64decode s2) as [sig|] eqn:H2; cbn [bind] in H;
    [|discriminate H].
  destruct (_urlsafe_b64decode s1) as [body|] eqn:H1; cbn [bind] in H;
    [|discriminate H].
  destruct (loads body) as [p|] eqn:Hl; cbn [try_except bind] in H;
    [|discriminate H].
  apply Return_inj in H. injection H as <- <- <- <-.
  exists s0, s1, s2.
  split; [reflexivity|]. split; [reflexivity|].
  split; [exact H2|]. split; [exact H1 | exact Hl].
Qed.

Lemma verify_inv (jwt : str) (certs : list (str * str)) (audience : option str)
    (now : Z) (parsed : json) :
  verify_signed_jwt_with_certs jwt certs audience now = Return parsed ->
  exists signed signature json_body,
    parse_token jwt = Return (signed, signature, json_body, parsed)
    /\ check_signature certs signed signature = Return true
    /\ check_timestamps json_body parsed now = Return tt
    /\ check_audience json_body parsed audience = Return tt.
Proof.
  unfold verify_signed_jwt_with_certs. intros H.
  destruct (parse_token jwt) as [[[[signed signature] json_body] p]|] eqn:Hp;
    cbn [bind] in H; [|discriminate H].
  destruct (check_signature certs signed signature) as [verified|] eqn:Hs;
    cbn [bind] in H; [|discriminate H].
  destruct verified; cbn [negb] in H; [|discriminate H].
  destruct (check_timestamps json_body p now) as [[]|] eqn:Ht; cbn [bind] in H;
    [|discriminate H].
  destruct (check_audience json_body p audience) as [[]|] eqn:Ha;
    cbn [bind] in H; [|discriminate H].
  apply Return_inj in H. subst p.
  exists signed, signature, json_body.
  split; [reflexivity|]. split; [exact Hs|]. split; [exact Ht | exact Ha].
Qed.

Lemma as_number_not_None (v : json) (n : Z) :
  as_number v = Some n -> is_None v = false.
Proof. destruct v; try reflexivity. discriminate. Qed.

Lemma check_timestamps_num (json_body : str) (parsed iat_v exp_v : json)
    (now iat exp : Z) :
  dict_get parsed (lit "iat") = Return iat_v -> as_number iat_v = Some iat ->
  dict_get parsed (lit "exp") = Return exp_v -> as_number exp_v = Some exp ->
  check_timestamps json_body parsed now =
  if now + MAX_TOKEN_LIFETIME_SECS <=? exp then
    Raise (AppIdentityError (ExpTooFarInFuture json_body))
  else if now <? iat - CLOCK_SKEW_SECS then
    Raise (AppIdentityError
             (TokenUsedTooEarly now (iat - CLOCK_SKEW_SECS) json_body))
  else if exp + CLOCK_SKEW_SECS <? now then
    Raise (AppIdentityError
             (TokenUsedTooLate now (exp + CLOCK_SKEW_SECS) json_body))
  else Return tt.
Proof.
  intros Hi Hin He Hen. unfold check_timestamps.
  rewrite Hi. cbn [bind]. rewrite (as_number_not_None _ _ Hin).
  unfold py_sub. rewrite Hin. cbn [bind]. rewrite He. cbn [bind].
  rewrite (as_number_not_None _ _ Hen).
  unfold py_ge, py_add. rewrite Hen. reflexivity.
Qed.

(** Either both timestamps are integers, or the timestamp checks fail in a
    way that does not depend on the clock. *)
Lemma check_timestamps_cases (json_body : str) (parsed : json) :
  (exists iat_v exp_v iat exp,
     dict_get parsed (lit "iat") = Return iat_v /\ as_number iat_v = Some iat
     /\ dict_get parsed (lit "exp") = Return exp_v /\ as_number exp_v = Some exp)
  \/ (exists e, (forall now, check_timestamps json_body parsed now = Raise e)
                /\ (forall n l b, e <> AppIdentityError (TokenUsedTooLate n l b))).
Proof.
  unfold check_timestamps.
  destruct (dict_get parsed (lit "iat")) as [iat_v|e] eqn:Hi; cbn [bind].
  2:{ right. exists e. split; [reflexivity|].
      destruct parsed; cbn [dict_get] in Hi; try discriminate Hi;
        injection Hi as <-; discriminate. }
  destruct (as_number iat_v) as [iat|] eqn:Hin.
  2:{ right. destruct (is_None iat_v).
      - eexists. split; [reflexivity | discriminate].
      - unfold py_sub. rewrite Hin. cbn [bind].
        eexists. split; [reflexivity | discriminate]. }
  rewrite (as_number_not_None _ _ Hin). unfold py_sub. rewrite Hin. cbn [bind].
  destruct (dict_get parsed (lit "exp")) as [exp_v|e] eqn:He; cbn [bind].
  2:{ right. exists e. split; [reflexivity|].
      destruct parsed; cbn [dict_get] in He; try discriminate He;
        injection He as <-; discriminate. }
  destruct (as_number exp_v) as [exp|] eqn:Hen.
  - left. exists iat_v, exp_v, iat, exp. repeat split; assumption.
  - right. destruct (is_None exp_v) eqn:Hnone.
    + eexists. split; [reflexivity | discriminate].
    + unfold py_ge. rewrite Hen, Hnone. cbn [negb].
      eexists. split; [reflexivity | discriminate].
Qed.

Lemma check_timestamps_inv (json_body : str) (parsed : json) (now : Z) :
  check_timestamps json_body parsed now = Return tt ->
  exists iat_v exp_v iat exp,
    dict_get parsed (lit "iat") = Return iat_v /\ as_number iat_v = Some iat
    /\ dict_get parsed (lit "exp") = Return exp_v /\ as_number exp_v = Some exp
    /\ exp < now + MAX_TOKEN_LIFETIME_SECS
    /\ iat - CLOCK_SKEW_SECS <= now <= exp + CLOCK_SKEW_SECS.
Proof.
  intros H.
  destruct (check_timestamps_cases json_body parsed)
    as [[iat_v [exp_v [iat [exp [Hi [Hin [He Hen]]]]]]] | [e [Hall _]]].
  - rewrite (check_timestamps_num _ _ _ _ now _ _ Hi Hin He Hen) in H.
    exists iat_v, exp_v, iat, exp.
    destruct (now + MAX_TOKEN_LIFETIME_SECS <=? exp) eqn:E1; [discriminate H|].
    destruct (now <? iat - CLOCK_SKEW_SECS) eqn:E2; [discriminate H|].
    destruct (exp + CLOCK_SKEW_SECS <? now) eqn:E3; [discriminate H|].
    apply Z.leb_gt in E1. apply Z.ltb_ge in E2. apply Z.ltb_ge in E3.
    repeat split; assumption.
  - rewrite Hall in H. discriminate H.
Qed.

Lemma check_audience_inv (json_body : str) (parsed : json) (audience : str) :
  check_audience json_body parsed (Some audience) = Return tt ->
  dict_get parsed (lit "aud") = Return (JString audience).
Proof.
  unfold check_audience.
  destruct (dict_get parsed (lit "aud")) as [aud|]; cbn [bind]; [|discriminate].
  destruct (is_None aud); [discriminate|].
  destruct aud; cbn [py_ne_str]; try discriminate.
  destruct (str_eqb x audience) eqn:E; cbn [negb]; [|discriminate].
  apply str_eqb_eq in E. subst x. reflexivity.
Qed.

(** X8: whatever [verify_signed_jwt_with_certs] returns is the payload that
    the second segment of a three-segment token decodes to, signed over the
    first two segments under a certificate of the set, with [iat] and [exp]
    present (not [None]) and, when both are integers, such that
    [exp < now + 86400] and [iat - 300 <= now <= exp + 300], and with [aud]
    equal to the expected audience when one is given. *)
Theorem verify_sound (jwt : str) (certs : list (str * str))
    (audience : option str) (now : Z) (parsed : json) :
  verify_signed_jwt_with_certs jwt certs audience now = Return parsed ->
  exists s0 s1 s2 signature json_body iat_v exp_v,
    split "." jwt = [s0; s1; s2]
    /\ _urlsafe_b64decode s2 = Return signature
    /\ _urlsafe_b64decode s1 = Return json_body
    /\ loads json_body = Return parsed
    /\ some_cert_verifies certs (s0 ++ "."%char :: s1) signature
    /\ dict_get parsed (lit "iat") = Return iat_v /\ iat_v <> JNull
    /\ dict_get parsed (lit "exp") = Return exp_v /\ exp_v <> JNull
    /\ (forall iat exp,
        as_number iat_v = Some iat -> as_number exp_v = Some exp ->
        exp < now + 86400 /\ iat - 300 <= now <= exp + 300)
    /\ (forall a, audience = Some a ->
        dict_get parsed (lit "aud") = Return (JString a)).
Proof.
  intros H.
  destruct (verify_inv _ _ _ _ _ H)
    as [signed [signature [json_body [Hp [Hs [Ht Ha]]]]]].
  destruct (parse_token_inv _ _ _ _ _ Hp)
    as [s0 [s1 [s2 [Hsplit [-> [H2 [H1 Hl]]]]]]].
  destruct (check_timestamps_inv _ _ _ Ht)
    as [iat_v [exp_v [iat [exp [Hi [Hin [He [Hen [Hcap Hwin]]]]]]]]].
  exists s0, s1, s2, signature, json_body, iat_v, exp_v.
  split; [exact Hsplit|]. split; [exact H2|]. split; [exact H1|].
  split; [exact Hl|].
  split; [apply check_signature_sound; exact Hs|].
  split; [exact Hi|].
  split; [intros ->; discriminate Hin|].
  split; [exact He|].
  split; [intros ->; discriminate Hen|].
  split.
  { intros iat' exp' Hin' Hen'.
    rewrite Hin in Hin'. injection Hin' as <-.
    rewrite Hen in Hen'. injection Hen' as <-.
    split; [exact Hcap | exact Hwin]. }
  intros a Heq. subst audience. exact (check_audience_inv _ _ _ Ha).
Qed.

(** X9: a token that is accepted with a certificate set is accepted, with
    the same result, when further entries are appended to the items that
    are iterated, whatever they are. *)
Theorem verify_more_certs (jwt : str) (certs more : list (str * str))
    (audience : option str) (now : Z) (parsed : json) :
  verify_signed_jwt_with_certs jwt certs audience now = Return parsed ->
  verify_signed_jwt_with_certs jwt (certs ++ more) audience now = Return parsed.
Proof.
  intros H.
  destruct (verify_inv _ _ _ _ _ H)
    as [signed [signature [json_body [Hp [Hs [Ht Ha]]]]]].
  rewrite (verify_after_signature _ _ _ _ _ _ _ _ Hp
             (check_signature_app _ more _ _ Hs)).
  rewrite Ht. cbn [bind]. rewrite Ha. reflexivity.
Qed.

(** X10: a token that is accepted for an expected audience is accepted, with
    the same result, when no audience is expected. *)
Theorem verify_without_audience (jwt : str) (certs : list (str * str))
    (audience : str) (now : Z) (parsed : json) :
  verify_signed_jwt_with_certs jwt certs (Some audience) now = Return parsed ->
  verify_signed_jwt_with_certs jwt certs None now = Return parsed.
Proof.
  intros H.
  destruct (verify_inv _ _ _ _ _ H)
    as [signed [signature [json_body [Hp [Hs [Ht Ha]]]]]].
  rewrite (verify_after_signature _ _ _ _ _ _ _ _ Hp Hs).
  rewrite Ht. reflexivity.
Qed.

(** X11: the times at which a token is accepted form an interval: accepted
    at [n1] and at [n2], it is accepted at every time between them. *)
Theorem verify_between (jwt : str) (certs : list (str * str))
    (audience : option str) (n1 n2 now : Z) (parsed : json) :
  verify_signed_jwt_with_certs jwt certs audience n1 = Return parsed ->
  verify_signed_jwt_with_certs jwt certs audience n2 = Return parsed ->
  n1 <= now <= n2 ->
  verify_signed_jwt_with_certs jwt certs audience now = Return parsed.
Proof.
  intros H1 H2 [Hlo Hhi].
  destruct (verify_inv _ _ _ _ _ H1)
    as [signed [signature [json_body [Hp [Hs [Ht1 Ha]]]]]].
  destruct (verify_inv _ _ _ _ _ H2)
    as [signed' [signature' [json_body' [Hp' [_ [Ht2 _]]]]]].
  rewrite Hp in Hp'. apply Return_inj in Hp'. injection Hp' as <- <- <-.
  destruct (check_timestamps_inv _ _ _ Ht1)
    as [iat_v [exp_v [iat [exp [Hi [Hin [He [Hen [Hcap1 Hwin1]]]]]]]]].
  destruct (check_timestamps_inv _ _ _ Ht2)
    as [iat_v' [exp_v' [iat' [exp' [Hi' [Hin' [He' [Hen' [_ Hwin2]]]]]]]]].
  rewrite Hi in Hi'. apply Return_inj in Hi'. subst iat_v'.
  rewrite He in He'. apply Return_inj in He'. subst exp_v'.
  rewrite Hin in Hin'. injection Hin' as <-.
  rewrite Hen in Hen'. injection Hen' as <-.
  rewrite (verify_after_signature _ _ _ _ _ _ _ _ Hp Hs).
  rewrite (check_timestamps_num _ _ _ _ now _ _ Hi Hin He Hen).
  unfold CLOCK_SKEW_SECS, MAX_TOKEN_LIFETIME_SECS in *.
  replace (now + 86400 <=? exp) with false by (symmetry; apply Z.leb_gt; lia).
  replace (now <? iat - 300) with false by (symmetry; apply Z.ltb_ge; lia).
  replace (exp + 300 <? now) with false by (symmetry; apply Z.ltb_ge; lia).
  cbn [bind]. rewrite Ha. reflexivity.
Qed.

(** X12: a token that passes the signature check and is rejected as used
    too late stays rejected as used too late at every later time. *)
Theorem expired_stays_expired (jwt : str) (certs : list (str * str))
    (audience : option str) (now later latest : Z)
    (signed signature json_body body : str) (parsed : json) :
  parse_token jwt = Return (signed, signature, json_body, parsed) ->
  check_signature certs signed signature = Return true ->
  verify_signed_jwt_with_certs jwt certs audience now
  = Raise (AppIdentityError (TokenUsedTooLate now latest body)) ->
  now <= later ->
  verify_signed_jwt_with_certs jwt certs audience later
  = Raise (AppIdentityError (TokenUsedTooLate later latest body)).
Proof.
  intros Hp Hs H Hle.
  rewrite (verify_after_signature _ _ _ _ _ _ _ _ Hp Hs) in H.
  rewrite (verify_after_signature _ _ _ _ _ _ _ _ Hp Hs).
  destruct (check_timestamps_cases json_body parsed)
    as [[iat_v [exp_v [iat [exp [Hi [Hin [He Hen]]]]]]] | [e [Hall Hnot]]].
  - rewrite (check_timestamps_num _ _ _ _ now _ _ Hi Hin He Hen) in H.
    rewrite (check_timestamps_num _ _ _ _ later _ _ Hi Hin He Hen).
    unfold CLOCK_SKEW_SECS, MAX_TOKEN_LIFETIME_SECS in *.
    destruct (now + 86400 <=? exp) eqn:E1; [discriminate H|].
    destruct (now <? iat - 300) eqn:E2; [discriminate H|].
    destruct (exp + 300 <? now) eqn:E3.
    + cbn [bind] in H. injection H as <- <-.
      apply Z.leb_gt in E1. apply Z.ltb_ge in E2. apply Z.ltb_lt in E3.
      replace (later + 86400 <=? exp) with false
        by (symmetry; apply Z.leb_gt; lia).
      replace (later <? iat - 300) with false by (symmetry; apply Z.ltb_ge; lia).
      replace (exp + 300 <? later) with true by (symmetry; apply Z.ltb_lt; lia).
      reflexivity.
    + cbn [bind] in H. exfalso. unfold check_audience in H.
      destruct audience as [a|]; [|discriminate H].
      destruct (dict_get parsed (lit "aud")) as [aud|] eqn:Haud;
        cbn [bind] in H.
      * destruct (is_None aud); [discriminate H|].
        destruct (py_ne_str aud a); discriminate H.
      * destruct parsed; cbn [dict_get] in Hi, Haud;
          try discriminate Hi; discriminate Haud.
  - rewrite Hall in H. cbn [bind] in H. injection H as ->.
    exfalso. exact (Hnot _ _ _ eq_refl).
Qed.

End Acceptance.

Lemma verify_sound_witness :
  exists s0 s1 s2 signature,
    split "." Sample.jwt_fresh = [s0; s1; s2]
    /\ some_cert_verifies (B:=Sample.backend) Sample.rotation
         (s0 ++ "."%char :: s1) signature.
Proof.
  assert (H : Sample.verify Sample.jwt_fresh Sample.rotation None Sample.now
              = Return (Sample.claims (JInt 100000) (JInt 103600)))
    by (vm_compute; reflexivity).
  destruct (verify_sound (J:=Sample.json_lib) (B:=Sample.backend) _ _ _ _ _ H)
    as [s0 [s1 [s2 [signature [json_body [iat_v [exp_v
         [Hsplit [_ [_ [_ [Hsome _]]]]]]]]]]]].
  exists s0, s1, s2, signature. split; [exact Hsplit | exact Hsome].
Defined.

Lemma verify_more_certs_witness :
  Sample.verify Sample.jwt_fresh (Sample.rotation ++ [(lit "c", Sample.pubkeyA)])
    None Sample.now
  = Return (Sample.claims (JInt 100000) (JInt 103600)).
Proof.
  apply (verify_more_certs (J:=Sample.json_lib) (B:=Sample.backend)).
  vm_compute. reflexivity.
Defined.

Lemma verify_without_audience_witness :
  Sample.verify Sample.jwt_aud Sample.rotation None Sample.now
  = Return (Sample.with_aud 100000 103600 (lit "svc-x")).
Proof.
  apply (verify_without_audience (J:=Sample.json_lib) (B:=Sample.backend)
           _ _ (lit "svc-x")).
  vm_compute. reflexivity.
Defined.

Lemma verify_between_witness :
  Sample.verify Sample.jwt_fresh Sample.rotation None 100000
  = Return (Sample.claims (JInt 100000) (JInt 103600)).
Proof.
  apply (verify_between (J:=Sample.json_lib) (B:=Sample.backend)
           _ _ _ 99700 103900).
  - vm_compute. reflexivity.
  - vm_compute. reflexivity.
  - lia.
Defined.

Lemma expired_stays_expired_witness :
  Sample.verify Sample.jwt_fresh Sample.rotation None 200000
  = Raise (AppIdentityError
             (TokenUsedTooLate 200000 103900
                (Sample.print (Sample.claims (JInt 100000) (JInt 103600))))).
Proof.
  refine (expired_stays_expired (J:=Sample.json_lib) (B:=Sample.backend)
            Sample.jwt_fresh Sample.rotation None 103901 200000 103900
            _ _ _ _ _ _ _ _ _).
  - vm_compute. reflexivity.
  - vm_compute. reflexivity.
  - vm_compute. reflexivity.
  - lia.
Defined.

(** ** Certificates that cannot be loaded *)

Section Loading.
Context {J : JSONLib} {B : Backend}.

Lemma check_signature_skip (before rest : list (str * str))
    (signed signature : str) :
  check_signature before signed signature = Return false ->
  check_signature (before ++ rest) signed signature
  = check_signature rest signed signature.
Proof.
  induction before as [|[keyname pem] more IH]; cbn [check_signature app].
  - reflexivity.
  - destruct (Verifier_from_string pem true) as [verifier|];
      cbn [bind]; [|discriminate].
    destruct (Verifier_verify verifier signed signature) as [ok|];
      cbn [bind]; [|discriminate].
    destruct ok; [discriminate | exact IH].
Qed.

(** X13: when the entries iterated before a certificate do not verify the
    signature and that certificate cannot be loaded, verification ends in
    the error of the loader, whatever entries follow. *)
Theorem unloadable_cert_propagates (jwt : str)
    (before rest : list (str * str)) (keyname pem : str)
    (audience : option str) (now : Z) (signed signature json_body : str)
    (parsed : json) (e : exn) :
  parse_token jwt = Return (signed, signature, json_body, parsed) ->
  check_signature before signed signature = Return false ->
  Verifier_from_string pem true = Raise e ->
  verify_signed_jwt_with_certs jwt (before ++ (keyname, pem) :: rest)
    audience now
  = Raise e.
Proof.
  intros Hp Hb Hl. unfold verify_signed_jwt_with_certs.
  rewrite Hp. cbn [bind]. rewrite (check_signature_skip _ _ _ _ Hb).
  cbn [check_signature]. rewrite Hl. reflexivity.
Qed.

End Loading.

Lemma unloadable_cert_propagates_witness :
  Sample.verify Sample.jwt_fresh
    ([(lit "a", Sample.certA)] ++ (lit "k", Sample.pubkeyA)
       :: [(lit "b", Sample.certB)])
    None Sample.now
  = Raise Sample.crypto_Error.
Proof.
  refine (unloadable_cert_propagates (J:=Sample.json_lib) (B:=Sample.backend)
            Sample.jwt_fresh [(lit "a", Sample.certA)] [(lit "b", Sample.certB)]
            (lit "k") Sample.pubkeyA None Sample.now _ _ _ _
            Sample.crypto_Error _ _ _).
  - vm_compute. reflexivity.
  - vm_compute. reflexivity.
  - vm_compute. reflexivity.
Defined.

(** X14: with the PyCrypto classes, [verify_signed_jwt_with_certs] never
    returns a payload: [Verifier.from_string] is called with
    [is_x509_cert = True], which [PyCryptoVerifier] does not implement, so
    for a token that parses and a set with at least one entry the result is
    [NotImplementedError]. *)
Theorem pycrypto_verifies_nothing (L : PyCrypto) (J : JSONLib) :
  (forall jwt certs audience now parsed,
     verify_signed_jwt_with_certs (B:=PyCryptoBackend L) jwt certs audience now
     <> Return parsed)
  /\ (forall jwt keyname pem rest audience now signed signature json_body parsed,
        parse_token jwt = Return (signed, signature, json_body, parsed) ->
        verify_signed_jwt_with_certs (B:=PyCryptoBackend L) jwt
          ((keyname, pem) :: rest) audience now
        = Raise NotImplementedError).
Proof.
  split.
  - intros jwt certs audience now parsed H.
    destruct (verify_inv (B:=PyCryptoBackend L) _ _ _ _ _ H)
      as [signed [signature [json_body [_ [Hs _]]]]].
    destruct certs as [|[keyname pem] rest]; cbn in Hs; discriminate Hs.
  - intros jwt keyname pem rest audience now signed signature json_body parsed Hp.
    unfold verify_signed_jwt_with_certs. rewrite Hp. reflexivity.
Qed.

Lemma pycrypto_verifies_nothing_witness :
  verify_signed_jwt_with_certs (J:=Sample.json_lib)
    (B:=PyCryptoBackend Sample.pycrypto) Sample.jwt_fresh Sample.rotation
    None Sample.now
  = Raise NotImplementedError.
Proof.
  refine (proj2 (pycrypto_verifies_nothing Sample.pycrypto Sample.json_lib)
            Sample.jwt_fresh (lit "a") Sample.certA [(lit "b", Sample.certB)]
            None Sample.now _ _ _ _ _).
  vm_compute. reflexivity.
Defined.

(** ** The segments of a token *)

Section Segments.
Context {J : JSONLib} {B : Backend}.

Lemma parse_token_segments (s0 s1 s2 : str) :
  ~ In "."%char s0 -> ~ In "."%char s1 -> ~ In "."%char s2 ->
  parse_token (join "." [s0; s1; s2])
  = (signature <- _urlsafe_b64decode s2 ;;
     json_body <- _urlsafe_b64decode s1 ;;
     parsed <- try_except (loads json_body)
                 (Raise (AppIdentityError (CantParseToken json_body))) ;;
     Return (s0 ++ "."%char :: s1, signature, json_body, parsed)).
Proof.
  intros H0 H1 H2. unfold parse_token.
  rewrite split_join3 by assumption.
  change (negb (len [s0; s1; s2] =? 3)) with false. reflexivity.
Qed.

(** A token whose segments decode, for which the loop over the certificates
    ends with [verified] set, and whose claims pass, is accepted. *)
Lemma verify_after_loop (s0 s1 s2 : str) (certs : list (str * str))
    (audience : option str) (now : Z) (signature json_body : str)
    (parsed iat_v exp_v : json) (iat exp : Z) :
  ~ In "."%char s0 -> ~ In "."%char s1 -> ~ In "."%char s2 ->
  _urlsafe_b64decode s2 = Return signature ->
  _urlsafe_b64decode s1 = Return json_body ->
  loads json_body = Return parsed ->
  check_signature certs (s0 ++ "."%char :: s1) signature = Return true ->
  dict_get parsed (lit "iat") = Return iat_v -> as_number iat_v = Some iat ->
  dict_get parsed (lit "exp") = Return exp_v -> as_number exp_v = Some exp ->
  exp < now + 86400 ->
  iat - 300 <= now <= exp + 300 ->
  (forall a, audience = Some a ->
   dict_get parsed (lit "aud") = Return (JString a)) ->
  verify_signed_jwt_with_certs (join "." [s0; s1; s2]) certs audience now
  = Return parsed.
Proof.
  intros Hd0 Hd1 Hd2 H2 H1 Hl Hs Hi Hin He Hen Hcap [Hlo Hhi] Haud.
  assert (Hp : parse_token (join "." [s0; s1; s2])
               = Return (s0 ++ "."%char :: s1, signature, json_body, parsed)).
  { rewrite parse_token_segments by assumption.
    rewrite H2. cbn [bind]. rewrite H1. cbn [bind]. rewrite Hl. reflexivity. }
  rewrite (verify_after_signature _ _ _ _ _ _ _ _ Hp Hs).
  rewrite (check_timestamps_num _ _ _ _ now _ _ Hi Hin He Hen).
  unfold CLOCK_SKEW_SECS, MAX_TOKEN_LIFETIME_SECS.
  replace (now + 86400 <=? exp) with false by (symmetry; apply Z.leb_gt; lia).
  replace (now <? iat - 300) with false by (symmetry; apply Z.ltb_ge; lia).
  replace (exp + 300 <? now) with false by (symmetry; apply Z.ltb_ge; lia).
  cbn [bind]. destruct audience as [a|]; [|reflexivity].
  cbn [check_audience]. rewrite (Haud a eq_refl). cbn [bind is_None].
  rewrite py_ne_str_same. reflexivity.
Qed.

(** X16: the third segment counts only through the bytes it decodes to: two
    tokens with the same first two segments, whose third segments decode
    alike, are accepted alike. *)
Theorem signature_segment_by_value (s0 s1 s2 s2' : str)
    (certs : list (str * str)) (audience : option str) (now : Z)
    (parsed : json) :
  ~ In "."%char s0 -> ~ In "."%char s1 ->
  ~ In "."%char s2 -> ~ In "."%char s2' ->
  _urlsafe_b64decode s2 = _urlsafe_b64decode s2' ->
  verify_signed_jwt_with_certs (join "." [s0; s1; s2]) certs audience now
  = Return parsed ->
  verify_signed_jwt_with_certs (join "." [s0; s1; s2']) certs audience now
  = Return parsed.
Proof.
  intros Hd0 Hd1 Hd2 Hd2' Hsame H.
  destruct (verify_inv _ _ _ _ _ H)
    as [signed [signature [json_body [Hp [Hs [Ht Ha]]]]]].
  assert (Hp' : parse_token (join "." [s0; s1; s2'])
                = Return (signed, signature, json_body, parsed)).
  { rewrite parse_token_segments in * by assumption.
    rewrite <- Hsame. exact Hp. }
  rewrite (verify_after_signature _ _ _ _ _ _ _ _ Hp' Hs).
  rewrite Ht. cbn [bind]. rewrite Ha. reflexivity.
Qed.

(** X17: a token that [make_signed_jwt] returns splits on [.] into exactly
    three segments: the encoded header, the encoded payload and the encoded
    signature of the first two joined by a dot; the second decodes to the
    JSON text of the payload and the third to the signature. *)
Theorem make_signed_jwt_segments (signer : Signer) (payload : json)
    (jwt : str) :
  make_signed_jwt signer payload = Return jwt ->
  let header :=
    JObject [(lit "typ", JString (lit "JWT")); (lit "alg", JString (lit "RS256"))] in
  let s0 := _urlsafe_b64encode (dumps header) in
  let s1 := _urlsafe_b64encode (dumps payload) in
  exists signature,
    Signer_sign signer (s0 ++ "."%char :: s1) = Return signature
    /\ split "." jwt = [s0; s1; _urlsafe_b64encode signature]
    /\ _urlsafe_b64decode s1 = Return (dumps payload)
    /\ _urlsafe_b64decode (_urlsafe_b64encode signature) = Return signature.
Proof.
  intros Hmake header s0 s1.
  unfold make_signed_jwt, _json_encode in Hmake.
  fold header in Hmake. fold s0 s1 in Hmake.
  change (join "." [s0; s1]) with (s0 ++ "."%char :: s1) in Hmake.
  destruct (Signer_sign signer (s0 ++ "."%char :: s1)) as [signature|] eqn:Hsig;
    cbn [bind] in Hmake; [|discriminate Hmake].
  apply Return_inj in Hmake. subst jwt. cbn [app].
  exists signature. split; [reflexivity|].
  split; [apply split_join3; apply _urlsafe_b64encode_no_dot|].
  split; apply _urlsafe_b64decode_encode.
Qed.

End Segments.

Lemma not_in_by_eqb (c : ascii) (x : str) :
  existsb (Ascii.eqb c) x = false -> ~ In c x.
Proof.
  intros H Hin.
  assert (Ht : existsb (Ascii.eqb c) x = true).
  { apply existsb_exists. exists c. split; [exact Hin | apply Ascii.eqb_refl]. }
  rewrite H in Ht. discriminate Ht.
Qed.

(** X15: a token [s0.s1.s2] is accepted, with the payload as result,
    whenever its third and second segments decode, the decoded second
    segment is read as [parsed], every entry of the certificate set can be
    loaded and one of them verifies the signature over [s0.s1], [iat] and
    [exp] are integers with [exp < now + 86400] and
    [iat - 300 <= now <= exp + 300], and [aud] is the expected audience if
    there is one.  The first segment is not decoded or inspected: it need
    not be a header, nor base64. *)
Theorem verify_complete (openssl : option OpenSSL) (pycrypto : option PyCrypto)
    (B : Backend) (J : JSONLib) (s0 s1 s2 : str) (certs : list (str * str))
    (audience : option str) (now : Z) (signature json_body : str)
    (parsed iat_v exp_v : json) (iat exp : Z) :
  select_backend openssl pycrypto = Return B ->
  ~ In "."%char s0 -> ~ In "."%char s1 -> ~ In "."%char s2 ->
  _urlsafe_b64decode s2 = Return signature ->
  _urlsafe_b64decode s1 = Return json_body ->
  loads json_body = Return parsed ->
  all_certs_parse certs ->
  some_cert_verifies certs (s0 ++ "."%char :: s1) signature ->
  dict_get parsed (lit "iat") = Return iat_v -> as_number iat_v = Some iat ->
  dict_get parsed (lit "exp") = Return exp_v -> as_number exp_v = Some exp ->
  exp < now + 86400 ->
  iat - 300 <= now <= exp + 300 ->
  (forall a, audience = Some a ->
   dict_get parsed (lit "aud") = Return (JString a)) ->
  verify_signed_jwt_with_certs (join "." [s0; s1; s2]) certs audience now
  = Return parsed.
Proof.
  intros Hsel Hd0 Hd1 Hd2 H2 H1 Hl Hall Hsome Hi Hin He Hen Hcap Hwin Haud.
  pose proof (selected_verify_total _ _ _ Hsel) as Htotal.
  destruct (check_signature_spec Htotal certs (s0 ++ "."%char :: s1)
              signature Hall) as [verified [Hcheck Hiff]].
  assert (Hs : check_signature certs (s0 ++ "."%char :: s1) signature
               = Return true).
  { rewrite Hcheck. f_equal. apply Hiff. exact Hsome. }
  exact (verify_after_loop s0 s1 s2 certs audience now signature json_body
           parsed iat_v exp_v iat exp Hd0 Hd1 Hd2 H2 H1 Hl Hs Hi Hin He Hen
           Hcap Hwin Haud).
Qed.

Lemma verify_complete_witness :
  Sample.verify Sample.jwt_no_header Sample.rotation None Sample.now
  = Return (Sample.claims (JInt 100000) (JInt 103600)).
Proof.
  refine (verify_complete (Some Sample.openssl) None Sample.backend
            Sample.json_lib
            (lit "!!") (lit "eyJpYXQiOjEwMDAwMCwiZXhwIjoxMDM2MDB9")
            (lit "a2V5Qps") Sample.rotation None Sample.now _ _ _
            (JInt 100000) (JInt 103600) 100000 103600
            _ _ _ _ _ _ _ _ _ _ _ _ _ _ _ _).
  - reflexivity.
  - apply not_in_by_eqb. reflexivity.
  - apply not_in_by_eqb. reflexivity.
  - apply not_in_by_eqb. reflexivity.
  - vm_compute. reflexivity.
  - vm_compute. reflexivity.
  - vm_compute. reflexivity.
  - intros keyname pem [H | [H | []]]; injection H as <- <-;
      eexists; vm_compute; reflexivity.
  - exists (lit "b"), Sample.certB, (lit "keyB").
    split; [right; left; reflexivity|].
    split; vm_compute; reflexivity.
  - reflexivity.
  - reflexivity.
  - reflexivity.
  - reflexivity.
  - reflexivity.
  - unfold Sample.now. lia.
  - intros a H. discriminate H.
Defined.

Lemma signature_segment_by_value_witness :
  Sample.verify Sample.jwt_junk Sample.rotation None Sample.now
  = Return (Sample.claims (JInt 100000) (JInt 103600)).
Proof.
  refine (signature_segment_by_value (J:=Sample.json_lib) (B:=Sample.backend)
            (lit "eyJ0eXAiOiJKV1QiLCJhbGciOiJSUzI1NiJ9")
            (lit "eyJpYXQiOjEwMDAwMCwiZXhwIjoxMDM2MDB9")
            (lit "a2V5Qt4") (lit "a2V5Qt4!") Sample.rotation None Sample.now _
            _ _ _ _ _ _).
  - apply not_in_by_eqb. reflexivity.
  - apply not_in_by_eqb. reflexivity.
  - apply not_in_by_eqb. reflexivity.
  - apply not_in_by_eqb. reflexivity.
  - vm_compute. reflexivity.
  - vm_compute. reflexivity.
Defined.

Lemma make_signed_jwt_segments_witness :
  exists signature,
    split "." Sample.jwt_fresh
    = [lit "eyJ0eXAiOiJKV1QiLCJhbGciOiJSUzI1NiJ9";
       lit "eyJpYXQiOjEwMDAwMCwiZXhwIjoxMDM2MDB9";
       _urlsafe_b64encode signature].
Proof.
  assert (H : make_signed_jwt (J:=Sample.json_lib) (B:=Sample.backend)
                Sample.signerB (Sample.claims (JInt 100000) (JInt 103600))
              = Return Sample.jwt_fresh)
    by (vm_compute; reflexivity).
  destruct (make_signed_jwt_segments (J:=Sample.json_lib) (B:=Sample.backend)
              _ _ _ H) as [signature [_ [Hsplit _]]].
  exists signature. exact Hsplit.
Defined.
